(** * h5p: per-user content state (ContentUserDataManager and its express controller)

    A shallow embedding of
    - packages/h5p-server/src/ContentUserDataManager.ts
    - packages/h5p-express/src/ContentUserDataRouter/ContentUserDataController.ts

    The JavaScript run time the code relies on (typeof, truthiness, strict
    equality, Number() on strings, Array.prototype.sort) is embedded first,
    following ECMA-262; IEEE 754 doubles are the [spec_float] of the Standard
    Library at precision 53. *)

From Stdlib Require Import ZArith List Bool Ascii String Lia Permutation Sorted.
From Stdlib Require Import Floats.SpecFloat.
From stdpp Require Import gmap strings.

Import ListNotations.
Local Open Scope string_scope.
Local Open Scope Z_scope.

(** ** ECMAScript values and primitives *)
Module JS.

(** Binary64. *)
Definition prec : Z := 53.
Definition emax : Z := 1024.

Definition number := spec_float.

Definition pos_zero : number := S754_zero false.

(** The Number value of a mathematical integer (exact below 2^53). *)
Definition of_Z (z : Z) : number := binary_normalize prec emax z 0 false.

Definition sub (x y : number) : number := SFsub prec emax x y.
Definition ltb (x y : number) : bool := SFltb x y.
Definition eqb (x y : number) : bool := SFeqb x y.

Definition isNaN (x : number) : bool :=
  match x with S754_nan => true | _ => false end.

(** Language values. Objects, symbols and functions are kept as opaque
    references: the code under study only inspects their type tag. *)
Inductive Value : Type :=
| Undefined
| Null
| Boolean (b : bool)
| Number (x : number)
| BigInt (z : Z)
| String (s : string)
| Symbol (ref : positive)
| Object (ref : positive)
| Function (ref : positive).

(** The [typeof] operator. *)
Definition typeof (v : Value) : string :=
  match v with
  | Undefined => "undefined"
  | Null => "object"
  | Boolean _ => "boolean"
  | Number _ => "number"
  | BigInt _ => "bigint"
  | String _ => "string"
  | Symbol _ => "symbol"
  | Object _ => "object"
  | Function _ => "function"
  end.

(** ToBoolean: the truthiness used by [if (v)] and by [filter]. *)
Definition ToBoolean (v : Value) : bool :=
  match v with
  | Undefined | Null => false
  | Boolean b => b
  | Number x =>
      match x with
      | S754_zero _ | S754_nan => false
      | _ => true
      end
  | BigInt z => negb (Z.eqb z 0)
  | String s => negb (String.eqb s "")
  | Symbol _ | Object _ | Function _ => true
  end.

(** IsStrictlyEqual, the [===] operator. *)
Definition strict_equal (a b : Value) : bool :=
  match a, b with
  | Undefined, Undefined => true
  | Null, Null => true
  | Boolean x, Boolean y => Bool.eqb x y
  | Number x, Number y => eqb x y
  | BigInt x, BigInt y => Z.eqb x y
  | String x, String y => String.eqb x y
  | Symbol x, Symbol y => Pos.eqb x y
  | Object x, Object y => Pos.eqb x y
  | Function x, Function y => Pos.eqb x y
  | _, _ => false
  end.

(** *** StringToNumber (ECMA-262 7.1.4.1.1)

    Strings are sequences of code units; the [ascii] of a Rocq string is
    read as a code unit below 256. *)

Definition code (c : ascii) : N := N_of_ascii c.

(** StrWhiteSpaceChar, restricted to code units below 256: TAB, LF, VT,
    FF, CR, SP and NBSP. *)
Definition isStrWhiteSpaceChar (c : ascii) : bool :=
  let n := code c in
  ((9 <=? n) && (n <=? 13) || (n =? 32) || (n =? 160))%N.

Fixpoint dropWhile {A} (p : A -> bool) (l : list A) : list A :=
  match l with
  | [] => []
  | x :: l' => if p x then dropWhile p l' else l
  end.

Definition trim (l : list ascii) : list ascii :=
  rev (dropWhile isStrWhiteSpaceChar (rev (dropWhile isStrWhiteSpaceChar l))).

(** The value of a digit in the given radix (letters in either case). *)
Definition digit_value (radix : N) (c : ascii) : option N :=
  let n := code c in
  let d :=
    if ((48 <=? n) && (n <=? 57))%N then Some (n - 48)%N
    else if ((97 <=? n) && (n <=? 122))%N then Some (n - 87)%N
    else if ((65 <=? n) && (n <=? 90))%N then Some (n - 55)%N
    else None in
  match d with
  | Some v => if (v <? radix)%N then Some v else None
  | None => None
  end.

(** Longest prefix of digits: its value, its length, and the rest. *)
Fixpoint digits_from (radix : N) (acc : N) (len : nat) (l : list ascii)
  : N * nat * list ascii :=
  match l with
  | [] => (acc, len, [])
  | c :: l' =>
      match digit_value radix c with
      | Some d => digits_from radix (acc * radix + d)%N (Datatypes.S len) l'
      | None => (acc, len, l)
      end
  end.

(** The Number value for the mathematical value p/q with sign [sx]:
    round to nearest, ties to even. The quotient is computed with enough
    extra bits for the rounding of [binary_round_aux] to be exact. *)
Definition round_ratio (sx : bool) (p q : positive) : number :=
  let k := Z.log2 (Zpos q) + 56 in
  let '(m, r) := Z.div_eucl (Z.shiftl (Zpos p) k) (Zpos q) in
  binary_round_aux prec emax sx m (- k) (new_location (Zpos q) r).

(** RoundMVResult for the mathematical value m * 10^e10. *)
Definition round_mv (sx : bool) (m : N) (e10 : Z) : number :=
  match m with
  | N0 => S754_zero sx
  | Npos p =>
      if (0 <=? e10)%Z
      then round_ratio sx (p * Z.to_pos (10 ^ e10)) 1
      else round_ratio sx p (Z.to_pos (10 ^ (- e10)))
  end.

(** ExponentPart_opt followed by the end of the literal. *)
Definition exponent_part (l : list ascii) : option Z :=
  match l with
  | [] => Some 0
  | c :: l' =>
      if (code c =? 101)%N || (code c =? 69)%N then
        let '(sx, l'') :=
          match l' with
          | s :: r =>
              if (code s =? 43)%N then (false, r)
              else if (code s =? 45)%N then (true, r)
              else (false, l')
          | [] => (false, l')
          end in
        match digits_from 10 0 0 l'' with
        | (_, O, _) => None
        | (v, _, []) => Some (if sx then - Z.of_N v else Z.of_N v)
        | _ => None
        end
      else None
  end.

(** StrUnsignedDecimalLiteral. *)
Definition unsigned_decimal (sx : bool) (l : list ascii) : number :=
  if String.eqb (string_of_list_ascii l) "Infinity" then S754_infinity sx
  else
    let '(ip, ilen, r1) := digits_from 10 0 0 l in
    let '(m, flen, r2) :=
      match r1 with
      | c :: r =>
          if (code c =? 46)%N
          then let '(m, len, r') := digits_from 10 ip ilen r in
               (m, (len - ilen)%nat, r')
          else (ip, O, r1)
      | [] => (ip, O, r1)
      end in
    match (ilen + flen)%nat with
    | O => S754_nan
    | _ =>
        match exponent_part r2 with
        | Some e => round_mv sx m (e - Z.of_nat flen)
        | None => S754_nan
        end
    end.

(** NonDecimalIntegerLiteral: the digits after 0b, 0o or 0x. *)
Definition non_decimal (radix : N) (l : list ascii) : number :=
  match digits_from radix 0 0 l with
  | (_, O, _) => S754_nan
  | (v, _, []) => round_mv false v 0
  | _ => S754_nan
  end.

Definition StringToNumber (s : string) : number :=
  match trim (list_ascii_of_string s) with
  | [] => pos_zero
  | c :: l =>
      let n := code c in
      if (n =? 43)%N then unsigned_decimal false l
      else if (n =? 45)%N then unsigned_decimal true l
      else
        match l with
        | p :: l' =>
            let k := code p in
            if (n =? 48)%N && ((k =? 120)%N || (k =? 88)%N) then non_decimal 16 l'
            else if (n =? 48)%N && ((k =? 111)%N || (k =? 79)%N) then non_decimal 8 l'
            else if (n =? 48)%N && ((k =? 98)%N || (k =? 66)%N) then non_decimal 2 l'
            else unsigned_decimal false (c :: l)
        | [] => unsigned_decimal false (c :: l)
        end
  end.

(** *** Array.prototype.sort

    SortCompare turns a NaN answer of the comparator into +0. The sort is
    stable (ECMA-262 since 2019); it is embedded as a stable insertion
    sort, which for a consistent comparator yields the one order every
    conforming engine yields. For a comparator that is not consistent
    ECMA-262 leaves the order to the engine: the statements rely on the
    order only where the comparator is consistent on the list, or at a
    list that the insertion sort and V8's TimSort both leave as it is. *)
Section Sort.
Context {A : Type}.
Variable comparefn : A -> A -> number.

Definition SortCompare (x y : A) : number :=
  let v := comparefn x y in
  if isNaN v then pos_zero else v.

Fixpoint insert (x : A) (l : list A) : list A :=
  match l with
  | [] => [x]
  | y :: l' =>
      if ltb pos_zero (SortCompare x y) then y :: insert x l' else x :: l
  end.

Fixpoint sort (l : list A) : list A :=
  match l with
  | [] => []
  | x :: l' => insert x (sort l')
  end.
End Sort.

End JS.

(** ** The types of h5p-server used by the manager

    [IUser], [IContentUserData] and [IContentUserDataStorage] are declared
    in the package's types.ts. *)

Definition ContentId : Type := string.

(** Modelled from the spec: the authenticated principal of types.ts; the
    manager reads nothing but [id]. *)
Module IUser.
Record t : Type := { id : string; name : string; email : string }.
End IUser.

(** Modelled from the spec: the UserDataRecord of section 3 (the
    IContentUserData interface of types.ts). *)
Record IContentUserData : Type := {
  contentId : ContentId;
  userId : string;
  dataType : string;
  subContentId : string;
  userState : string;
  preload : bool;
  invalidate : bool
}.

(** One element of the preloaded sequence: an object with a single
    computed key. *)
Definition ISerializedContentUserData : Type := gmap string string.

(** ** Promises

    An async method either fulfils with a value or rejects with the thrown
    exception; it runs against a world that it may change. *)
Inductive Exception : Type :=
| Error (message : string)
| TypeError (message : string).

Inductive Outcome (A : Type) : Type :=
| Fulfilled (a : A)
| Rejected (e : Exception).
Arguments Fulfilled {A} a.
Arguments Rejected {A} e.

Definition Async (W A : Type) : Type := W -> Outcome A * W.

Definition resolve {W A} (a : A) : Async W A := fun w => (Fulfilled a, w).
Definition throw {W A} (e : Exception) : Async W A := fun w => (Rejected e, w).
Definition await {W A B} (p : Async W A) (k : A -> Async W B) : Async W B :=
  fun w =>
    match p w with
    | (Fulfilled a, w') => k a w'
    | (Rejected e, w') => (Rejected e, w')
    end.

Declare Scope async_scope.
Delimit Scope async_scope with async.
Notation "x <- p ;; k" := (await p (fun x => k))
  (at level 100, p at next level, right associativity) : async_scope.

(** ** The storage backend *)

(** The calls the manager can make on its storage object, as they are
    recorded in the world. *)
Inductive StorageCall : Type :=
| Call_loadContentUserData (c : ContentId) (dt sc : string) (u : IUser.t)
| Call_saveContentUserData (c : ContentId) (dt sc st : string) (inv pre : bool) (u : IUser.t)
| Call_deleteContentUserDataByUserId (c : ContentId) (uid : string) (u : IUser.t)
| Call_deleteAllContentUserDataByContentId (c : ContentId) (u : IUser.t)
| Call_listByContent (c : ContentId) (uid : string)
| Call_saveFinishedDataForUser (c : ContentId)
    (score maxScore opened finished completionTime : JS.number) (u : IUser.t).

(** Modelled from the spec: the Storage Backend Contract of section 6 (the
    IContentUserDataStorage interface of types.ts), over the backend's own
    state [S]. *)
Module Storage.
Record t (S : Type) : Type := {
  loadContentUserData :
    ContentId -> string -> string -> IUser.t -> Async S (option IContentUserData);
  saveContentUserData :
    ContentId -> string -> string -> string -> bool -> bool -> IUser.t -> Async S unit;
  deleteContentUserDataByUserId :
    ContentId -> string -> IUser.t -> Async S unit;
  deleteAllContentUserDataByContentId :
    ContentId -> IUser.t -> Async S unit;
  listByContent :
    ContentId -> string -> Async S (list IContentUserData);
  saveFinishedDataForUser :
    ContentId -> JS.number -> JS.number -> JS.number -> JS.number -> JS.number ->
    IUser.t -> Async S unit
}.
Arguments loadContentUserData {S}.
Arguments saveContentUserData {S}.
Arguments deleteContentUserDataByUserId {S}.
Arguments deleteAllContentUserDataByContentId {S}.
Arguments listByContent {S}.
Arguments saveFinishedDataForUser {S}.
End Storage.

(** The world of a request: the backend's state and the calls made on the
    storage object so far. *)
Record World (S : Type) : Type := {
  backend : S;
  calls : list StorageCall
}.
Arguments backend {S}.
Arguments calls {S}.

(** A method call on the storage object. *)
Definition invoke {S A} (c : StorageCall) (method : Async S A) : Async (World S) A :=
  fun w =>
    let '(r, s') := method (backend w) in
    (r, {| backend := s'; calls := calls w ++ [c] |}).

(** ** ContentUserDataManager *)
Module ContentUserDataManager.
Section Methods.
Context {S : Type}.

(** The object: its one private field, which the constructor may leave
undefined. The logger calls are not part of the embedding. *)
Record t : Type := { contentUserDataStorage : option (Storage.t S) }.

Local Open Scope async_scope.

(** Reading a property of undefined. *)
Definition undefined_property {A} (prop : string) : Async (World S) A :=
throw (TypeError ("Cannot read properties of undefined (reading '" ++ prop ++ "')")).

Definition deleteContentUserDataByUserId (this : t)
(contentId : ContentId) (userId : string) (requestingUser : IUser.t)
: Async (World S) unit :=
match contentUserDataStorage this with
| Some storage =>
  invoke (Call_deleteContentUserDataByUserId contentId userId requestingUser)
    (Storage.deleteContentUserDataByUserId storage contentId userId requestingUser)
| None => resolve tt
end.

Definition deleteAllContentUserDataByContentId (this : t)
(contentId : ContentId) (requestingUser : IUser.t)
: Async (World S) unit :=
match contentUserDataStorage this with
| Some storage =>
  invoke (Call_deleteAllContentUserDataByContentId contentId requestingUser)
    (Storage.deleteAllContentUserDataByContentId storage contentId requestingUser)
| None => resolve tt
end.

Definition loadContentUserData (this : t)
(contentId : ContentId) (dataType subContentId : string) (user : IUser.t)
: Async (World S) (option IContentUserData) :=
match contentUserDataStorage this with
| None => resolve None
| Some storage =>
  invoke (Call_loadContentUserData contentId dataType subContentId user)
    (Storage.loadContentUserData storage contentId dataType subContentId user)
end.

(** The comparator handed to [sort]. *)
Definition bySubContentId (a b : IContentUserData) : JS.number :=
JS.sub (JS.StringToNumber (subContentId a)) (JS.StringToNumber (subContentId b)).

(** The object built for one state by [map]. *)
Definition serialize (state : IContentUserData) : ISerializedContentUserData :=
{[ dataType state := userState state ]}.

Definition generateContentUserDataIntegration (this : t)
(contentId : ContentId) (user : IUser.t)
: Async (World S) (option (list ISerializedContentUserData)) :=
match contentUserDataStorage this with
| None => resolve None
| Some storage =>
  states <- invoke (Call_listByContent contentId (IUser.id user))
              (Storage.listByContent storage contentId (IUser.id user)) ;;
  let sortedStates := JS.sort bySubContentId states in
  let mappedStates := map serialize (List.filter preload sortedStates) in
  resolve (Some mappedStates)
end.

Definition setFinished (this : t) (contentId : ContentId)
(score maxScore openedTimestamp finishedTimestamp completionTime : JS.number)
(user : IUser.t)
: Async (World S) unit :=
match contentUserDataStorage this with
| None => resolve tt
| Some storage =>
  _ <- invoke (Call_saveFinishedDataForUser contentId score maxScore
                 openedTimestamp finishedTimestamp completionTime user)
         (Storage.saveFinishedDataForUser storage contentId score maxScore
            openedTimestamp finishedTimestamp completionTime user) ;;
  resolve tt
end.

Definition invalid_arguments : string :=
"saveContentUserData received invalid arguments: invalidate or preload weren't boolean".

(** [invalidate] and [preload] are declared boolean, and checked again
at run time, so they arrive as arbitrary values. Past the check they
are booleans, and [JS.ToBoolean] is the identity on them. *)
Definition saveContentUserData (this : t)
(contentId : ContentId) (dataType subContentId userState : string)
(invalidate preload : JS.Value) (user : IUser.t)
: Async (World S) unit :=
if negb (String.eqb (JS.typeof invalidate) "boolean")
 || negb (String.eqb (JS.typeof preload) "boolean")
then throw (Error invalid_arguments)
else if JS.ToBoolean invalidate then
match contentUserDataStorage this with
| Some storage =>
    invoke (Call_deleteContentUserDataByUserId contentId (IUser.id user) user)
      (Storage.deleteContentUserDataByUserId storage contentId (IUser.id user) user)
| None => undefined_property "deleteContentUserDataByUserId"
end
else
match contentUserDataStorage this with
| Some storage =>
    invoke (Call_saveContentUserData contentId dataType subContentId userState
              (JS.ToBoolean invalidate) (JS.ToBoolean preload) user)
      (Storage.saveContentUserData storage contentId dataType subContentId
         userState (JS.ToBoolean invalidate) (JS.ToBoolean preload) user)
| None => resolve tt
end.

End Methods.
Arguments t S : clear implicits.
End ContentUserDataManager.

(** ** A reference backend

    Modelled from the spec: an in-memory implementation of the Storage
    Backend Contract (sections 3 and 6): at most one record per key
    (contentId, userId, dataType, subContentId), saves are upserts, deletes
    are by (contentId, userId) or by contentId, and no call fails. *)
Module MemoryStorage.

Record FinishedRecord : Type := {
  f_contentId : ContentId;
  f_userId : string;
  f_score : JS.number;
  f_maxScore : JS.number;
  f_openedTimestamp : JS.number;
  f_finishedTimestamp : JS.number;
  f_completionTime : JS.number
}.

Record state : Type := {
  userData : list IContentUserData;
  finishedData : list FinishedRecord
}.

Definition ofUser (c : ContentId) (uid : string) (r : IContentUserData) : bool :=
  String.eqb (contentId r) c && String.eqb (userId r) uid.

Definition hasKey (c : ContentId) (uid dt sc : string) (r : IContentUserData) : bool :=
  ofUser c uid r && String.eqb (dataType r) dt && String.eqb (subContentId r) sc.

Definition load (c : ContentId) (dt sc : string) (u : IUser.t)
  : Async state (option IContentUserData) :=
  fun s => (Fulfilled (List.find (hasKey c (IUser.id u) dt sc) (userData s)), s).

Definition save (c : ContentId) (dt sc st : string) (inv pre : bool) (u : IUser.t)
  : Async state unit :=
  fun s =>
    let r := {| contentId := c; userId := IUser.id u; dataType := dt;
                subContentId := sc; userState := st; preload := pre;
                invalidate := inv |} in
    (Fulfilled tt,
     {| userData :=
          List.filter (fun x => negb (hasKey c (IUser.id u) dt sc x)) (userData s) ++ [r];
        finishedData := finishedData s |}).

Definition deleteByUser (c : ContentId) (uid : string) (requestingUser : IUser.t)
  : Async state unit :=
  fun s =>
    (Fulfilled tt,
     {| userData := List.filter (fun x => negb (ofUser c uid x)) (userData s);
        finishedData := finishedData s |}).

Definition deleteAll (c : ContentId) (requestingUser : IUser.t) : Async state unit :=
  fun s =>
    (Fulfilled tt,
     {| userData := List.filter (fun x => negb (String.eqb (contentId x) c)) (userData s);
        finishedData := finishedData s |}).

Definition list (c : ContentId) (uid : string) : Async state (list IContentUserData) :=
  fun s => (Fulfilled (List.filter (ofUser c uid) (userData s)), s).

Definition saveFinished (c : ContentId)
    (score maxScore opened finished completionTime : JS.number) (u : IUser.t)
  : Async state unit :=
  fun s =>
    let f := {| f_contentId := c; f_userId := IUser.id u; f_score := score;
                f_maxScore := maxScore; f_openedTimestamp := opened;
                f_finishedTimestamp := finished;
                f_completionTime := completionTime |} in
    (Fulfilled tt,
     {| userData := userData s;
        finishedData :=
          List.filter
            (fun x => negb (String.eqb (f_contentId x) c && String.eqb (f_userId x) (IUser.id u)))
            (finishedData s) ++ [f] |}).

Definition storage : Storage.t state := {|
  Storage.loadContentUserData := load;
  Storage.saveContentUserData := save;
  Storage.deleteContentUserDataByUserId := deleteByUser;
  Storage.deleteAllContentUserDataByContentId := deleteAll;
  Storage.listByContent := list;
  Storage.saveFinishedDataForUser := saveFinished
|}.

(** A backend that holds exactly the given records. *)
Definition holding (l : Datatypes.list IContentUserData) : World state :=
  {| backend := {| userData := l; finishedData := [] |}; calls := [] |}.

End MemoryStorage.

(** Modelled from the spec: what the manager may assume of a backend
    (section 3, the key invariant and upsert; section 4.1, delete by user).
    A fulfilled upsert is visible to the next load of the same key, and a
    fulfilled delete by user leaves nothing of that user under that content. *)
Class LawfulStorage {S : Type} (st : Storage.t S) : Prop := {
  load_after_save :
    forall c dt sc v pre u s s',
      Storage.saveContentUserData st c dt sc v false pre u s = (Fulfilled tt, s') ->
      exists r s'',
        Storage.loadContentUserData st c dt sc u s' = (Fulfilled (Some r), s'')
        /\ userState r = v;
  load_after_delete :
    forall c uid requestingUser s s',
      Storage.deleteContentUserDataByUserId st c uid requestingUser s = (Fulfilled tt, s') ->
      forall dt sc u, IUser.id u = uid ->
        exists s'', Storage.loadContentUserData st c dt sc u s' = (Fulfilled None, s'')
}.

(** ** ContentUserDataController (h5p-express) *)
Module ContentUserDataController.

Record Params : Type := {
  contentId : ContentId;
  dataType : string;
  subContentId : string
}.

(** The request body as it comes off the wire: [invalidate] and [preload]
    are whatever the client sent. *)
Record IPostContentUserData : Type := {
  data : string;
  invalidate : JS.Value;
  preload : JS.Value
}.

Record Request : Type := {
  params : Params;
  user : IUser.t;
  body : IPostContentUserData
}.

(** What has been done to [res]. *)
Record Response : Type := {
  statusCode : Z;
  ended : bool
}.

Section Methods.
Context {W : Type}.

(** The manager method the controller calls; this version of the
    controller names it createOrUpdateContentUserData. *)
Variable createOrUpdateContentUserData :
  ContentId -> string -> string -> string -> bool -> bool -> IUser.t -> Async W unit.

Local Open Scope async_scope.

Definition postContentUserData (req : Request) : Async W Response :=
  let contentId := contentId (params req) in
  let dataType := dataType (params req) in
  let subContentId := subContentId (params req) in
  let user := user req in
  let body := body req in
  _ <- createOrUpdateContentUserData contentId dataType subContentId
         (data body)
         (JS.strict_equal (invalidate body) (JS.Number (JS.of_Z 1))
          || JS.strict_equal (invalidate body) (JS.String "1"))
         (JS.strict_equal (preload body) (JS.Number (JS.of_Z 1))
          || JS.strict_equal (preload body) (JS.String "1"))
         user ;;
  resolve {| statusCode := 200; ended := true |}.
End Methods.

(** What [new AjaxSuccessResponse(data)] builds; the class is h5p-server's
    and only its argument matters here. *)
Inductive AjaxResponse : Type :=
| AjaxSuccessResponse (data : JS.Value).

(** What [res.status(code).json(payload)] has sent. *)
Record JsonResponse : Type := {
  jsonStatus : Z;
  jsonBody : AjaxResponse
}.

Section Reading.
Context {W : Type}.

(** The manager method the controller calls to read a state; this
    version of the controller names it getContentUserData. *)
Variable managerGetContentUserData :
  ContentId -> string -> string -> IUser.t -> Async W (option IContentUserData).

Local Open Scope async_scope.

(** A GET request carries no body that the method reads; [userState] is a
    string, which is falsy exactly when it is empty. *)
Definition getContentUserData (req : Request) : Async W JsonResponse :=
  let contentId := contentId (params req) in
  let dataType := dataType (params req) in
  let subContentId := subContentId (params req) in
  result <- managerGetContentUserData contentId dataType subContentId (user req) ;;
  match result with
  | None =>
      resolve {| jsonStatus := 200; jsonBody := AjaxSuccessResponse (JS.Boolean false) |}
  | Some r =>
      if negb (JS.ToBoolean (JS.String (userState r)))
      then resolve {| jsonStatus := 200;
                      jsonBody := AjaxSuccessResponse (JS.Boolean false) |}
      else resolve {| jsonStatus := 200;
                      jsonBody := AjaxSuccessResponse (JS.String (userState r)) |}
  end.
End Reading.

End ContentUserDataController.

(** ** Vocabulary of the statements *)

(** The comparator's verdict on two numbers: [number_gt x y] when x - y,
    with a NaN read as +0 by SortCompare, is above +0, so that [sort] puts
    x behind y. *)
Definition number_gt (x y : JS.number) : bool :=
  JS.ltb JS.pos_zero
    (let v := JS.sub x y in
     if JS.isNaN v then JS.pos_zero else v).

(** [after s t]: the comparator of [generateContentUserDataIntegration]
    answers a positive number on subContentIds [s] and [t]. *)
Definition after (s t : string) : bool :=
  number_gt (JS.StringToNumber s) (JS.StringToNumber t).

(** The sort key of a record. *)
Definition key (r : IContentUserData) : JS.number :=
  JS.StringToNumber (subContentId r).

(** The value of a finite double, counted in units of the least positive
    double 2^emin; the infinities are told apart by [side]. *)
Definition scaled (x : JS.number) : Z :=
  match x with
  | S754_finite s m e => cond_Zopp s (Zpos m * 2 ^ (e - emin JS.prec JS.emax))
  | _ => 0
  end.

Definition side (x : JS.number) : Z :=
  match x with
  | S754_infinity true => -1
  | S754_infinity false => 1
  | _ => 0
  end.

(** The order of the values of two numbers (neither one NaN). *)
Definition number_le (x y : JS.number) : Prop :=
  side x < side y \/ (side x = side y /\ scaled x <= scaled y).

(** A number that is not NaN and whose exponent, if it is finite, is one
    the format has. *)
Definition well_formed (x : JS.number) : Prop :=
  match x with
  | S754_finite _ _ e => emin JS.prec JS.emax <= e
  | S754_nan => False
  | _ => True
  end.

(** The same, NaN let through. *)
Definition well_formed_or_NaN (x : JS.number) : Prop :=
  match x with
  | S754_finite _ _ e => emin JS.prec JS.emax <= e
  | _ => True
  end.

(** The records of a list that are marked for preloading. *)
Definition preloaded (l : list IContentUserData) : list IContentUserData :=
  List.filter preload l.

(** The world after one more call on the storage object. *)
Definition called {S} (w : World S) (s' : S) (c : StorageCall) : World S :=
  {| backend := s'; calls := calls w ++ [c] |}.

(** A manager with a storage object, and one without. *)
Definition configured {S} (storage : Storage.t S) : ContentUserDataManager.t S :=
  {| ContentUserDataManager.contentUserDataStorage := Some storage |}.

Definition unconfigured {S} : ContentUserDataManager.t S :=
  {| ContentUserDataManager.contentUserDataStorage := None |}.

(** What is strictly above +0: the positive finite numbers and +Infinity. *)
Definition positive_number (x : JS.number) : Prop :=
  match x with
  | S754_finite false _ _ | S754_infinity false => True
  | _ => False
  end.

(** [decimal_digits s = Some n]: [s] is one or more decimal digits and
    nothing else, and [n] is the integer they write. *)
Definition decimal_digits (s : string) : option N :=
  match JS.digits_from 10 0 0 (list_ascii_of_string s) with
  | (n, Datatypes.S _, []) => Some n
  | _ => None
  end.

(** Sample data: one user, one content, and a few of the user's records. *)
Module Sample.
Definition alice : IUser.t :=
  {| IUser.id := "alice"; IUser.name := "Alice"; IUser.email := "alice@example.org" |}.

Definition record (sc : string) (pre : bool) (dt st : string) : IContentUserData :=
  {| contentId := "c1"; userId := "alice"; dataType := dt; subContentId := sc;
     userState := st; preload := pre; invalidate := false |}.

Definition s0 := record "0" true "state" "zero".
Definition s1 := record "1" false "state" "one".
Definition s2 := record "2" true "state" "two".
Definition s10 := record "10" true "state" "ten".
Definition p1 := record "1" true "state" "one".
Definition top := record "" true "state" "top".
Definition lazy1 := record "3" false "state" "three".
End Sample.

(** [tied k r]: the key of [r] has the value of the number [k]. *)
Definition tied (k : JS.number) (r : IContentUserData) : bool :=
  (side (key r) =? side k) && (scaled (key r) =? scaled k).

(** The value of a key, as the pair that [number_le] compares. *)
Definition rank (r : IContentUserData) : Z * Z := (side (key r), scaled (key r)).

(** Every subContentId of the list reads as a number. *)
Definition numeric (l : list IContentUserData) : Prop :=
  Forall (fun r => JS.isNaN (key r) = false) l.

(** A backend that is down: every call rejects. *)
Module Down.
Definition error : Exception := Error "storage is down".

Definition storage : Storage.t unit := {|
  Storage.loadContentUserData := fun _ _ _ _ => throw error;
  Storage.saveContentUserData := fun _ _ _ _ _ _ _ => throw error;
  Storage.deleteContentUserDataByUserId := fun _ _ _ => throw error;
  Storage.deleteAllContentUserDataByContentId := fun _ _ => throw error;
  Storage.listByContent := fun _ _ => throw error;
  Storage.saveFinishedDataForUser := fun _ _ _ _ _ _ _ => throw error
|}.

Definition world : World unit := {| backend := tt; calls := [] |}.
End Down.

(** More sample data: records level with others or without a numeric
    subContentId, and requests. *)
Module Samples.
Import ContentUserDataController.

Definition s2b := Sample.record "2.0" true "notes" "two, again".
Definition intro := Sample.record "intro" true "state" "welcome".
Definition draft := Sample.record "intro" false "state" "draft".

Definition path0 : Params :=
  {| contentId := "c1"; dataType := "state"; subContentId := "0" |}.

Definition post_answers : Request :=
  {| params := path0; user := Sample.alice;
     body := {| data := "answers"; invalidate := JS.Number (JS.of_Z 0);
                preload := JS.String "1" |} |}.
End Samples.

(** * Properties *)

(** ** Array.prototype.sort rearranges, and nothing more *)
Section SortFacts.
Context {A : Type}.
Variable comparefn : A -> A -> JS.number.

Lemma insert_Permutation (x : A) (l : list A) :
  Permutation (JS.insert comparefn x l) (x :: l).
Proof.
  induction l as [|y l IH]; simpl.
  - reflexivity.
  - destruct (JS.ltb _ _).
    + rewrite IH. apply perm_swap.
    + reflexivity.
Qed.

Lemma sort_Permutation (l : list A) : Permutation (JS.sort comparefn l) l.
Proof.
  induction l as [|x l IH]; simpl.
  - reflexivity.
  - rewrite insert_Permutation. now apply perm_skip.
Qed.

Lemma sort_length (l : list A) : length (JS.sort comparefn l) = length l.
Proof. apply Permutation_length, sort_Permutation. Qed.
End SortFacts.

Lemma filter_Permutation_bool {A} (p : A -> bool) (l l' : list A) :
  Permutation l l' -> Permutation (List.filter p l) (List.filter p l').
Proof.
  induction 1 as [|x l l' _ IH|x y l|l l' l'' _ IH1 _ IH2]; simpl.
  - reflexivity.
  - destruct (p x); [now apply perm_skip | exact IH].
  - destruct (p x), (p y); try reflexivity. apply perm_swap.
  - now rewrite IH1.
Qed.

Lemma filter_none {A} (p : A -> bool) (l : list A) :
  (forall x, In x l -> p x = false) -> List.filter p l = [].
Proof.
  induction l as [|x l IH]; simpl; intros H.
  - reflexivity.
  - rewrite (H x) by now left. apply IH. intros y Hy. apply H. now right.
Qed.

(** The six orders of three elements. *)
Lemma Permutation_length_3_inv {A} (a b c : A) (l : list A) :
  Permutation [a; b; c] l ->
  l = [a; b; c] \/ l = [a; c; b] \/ l = [b; a; c] \/
  l = [b; c; a] \/ l = [c; a; b] \/ l = [c; b; a].
Proof.
  intros H.
  assert (Hx : forall x, In x l -> x = a \/ x = b \/ x = c).
  { intros x Hx. apply (Permutation_in x (Permutation_sym H)) in Hx.
    simpl in Hx. intuition auto. }
  pose proof (Permutation_length H) as Hl.
  destruct l as [|x [|y [|z [|]]]]; try discriminate Hl. clear Hl.
  destruct (Hx x) as [->|[->| ->]]; [now left | | |].
  - apply Permutation_cons_inv, Permutation_length_2_inv in H.
    destruct H as [H|H]; injection H as -> ->; auto 10.
  - assert (H' : Permutation [b; a; c] [b; y; z]) by (rewrite <- H; apply perm_swap).
    apply Permutation_cons_inv, Permutation_length_2_inv in H'.
    destruct H' as [H'|H']; injection H' as -> ->; auto 10.
  - assert (H' : Permutation [c; a; b] [c; y; z]).
    { rewrite <- H. change [c; a; b] with ([c] ++ [a; b])%list.
      change [a; b; c] with ([a; b] ++ [c])%list. apply Permutation_app_comm. }
    apply Permutation_cons_inv, Permutation_length_2_inv in H'.
    destruct H' as [H'|H']; injection H' as -> ->; auto 10.
Qed.

(** ** Doubles: rounding a positive quantity does not lose its sign *)
Section FloatFacts.

Lemma shr_1_div2 (mrs : shr_record) :
  0 <= shr_m mrs -> shr_m (shr_1 mrs) = shr_m mrs / 2.
Proof.
  destruct mrs as [m r s]. simpl. intros Hm.
  destruct m as [|[p|p|]|p]; simpl; try lia.
  - reflexivity.
  - apply Z.div_unique with (r := 1); lia.
  - apply Z.div_unique with (r := 0); lia.
  - reflexivity.
Qed.

Lemma iter_pos_shr_1 (n : positive) :
  forall mrs, 0 <= shr_m mrs ->
    shr_m (SpecFloat.iter_pos shr_1 n mrs) = shr_m mrs / 2 ^ Zpos n.
Proof.
  induction n as [n IH|n IH|]; intros mrs Hm; simpl SpecFloat.iter_pos.
  - assert (H1 : 0 <= shr_m (shr_1 mrs)).
    { rewrite shr_1_div2 by exact Hm. apply Z.div_pos; lia. }
    assert (H2 : 0 <= shr_m (SpecFloat.iter_pos shr_1 n (shr_1 mrs))).
    { rewrite IH by exact H1. apply Z.div_pos; [exact H1 | lia]. }
    rewrite IH by exact H2. rewrite IH by exact H1. rewrite shr_1_div2 by exact Hm.
    rewrite !Z.div_div by lia. f_equal.
    rewrite Pos2Z.inj_xI, Z.pow_add_r, Z.pow_1_r by lia.
    replace (2 * Z.pos n) with (Z.pos n + Z.pos n) by lia.
    rewrite Z.pow_add_r by lia. ring.
  - assert (H2 : 0 <= shr_m (SpecFloat.iter_pos shr_1 n mrs)).
    { rewrite IH by exact Hm. apply Z.div_pos; [exact Hm | lia]. }
    rewrite IH by exact H2. rewrite IH by exact Hm.
    rewrite Z.div_div by lia. f_equal.
    rewrite Pos2Z.inj_xO, <- Z.pow_add_r by lia. f_equal. lia.
  - rewrite shr_1_div2 by exact Hm. reflexivity.
Qed.

Lemma digits2_pos_lower (p : positive) : 2 ^ (Zpos (digits2_pos p) - 1) <= Zpos p.
Proof.
  induction p as [p IH|p IH|]; simpl digits2_pos.
  - rewrite Pos2Z.inj_succ.
    replace (Z.succ (Zpos (digits2_pos p)) - 1) with ((Zpos (digits2_pos p) - 1) + 1) by lia.
    rewrite Z.pow_add_r, Z.pow_1_r by lia. lia.
  - rewrite Pos2Z.inj_succ.
    replace (Z.succ (Zpos (digits2_pos p)) - 1) with ((Zpos (digits2_pos p) - 1) + 1) by lia.
    rewrite Z.pow_add_r, Z.pow_1_r by lia. lia.
  - simpl. lia.
Qed.

Lemma shr_m_of_loc (m : Z) (l : location) : shr_m (shr_record_of_loc m l) = m.
Proof. destruct l as [|[]]; reflexivity. Qed.

(** Shifting a positive mantissa down to the format keeps it positive,
    as long as its exponent is not below the least one. *)
Lemma shr_fexp_pos (m e : Z) (l : location) :
  0 < m -> emin JS.prec JS.emax <= e ->
  0 < shr_m (fst (shr_fexp JS.prec JS.emax m e l))
  /\ emin JS.prec JS.emax <= snd (shr_fexp JS.prec JS.emax m e l).
Proof.
  intros Hm He. unfold shr_fexp, shr, fexp.
  destruct m as [|p|p]; try lia. simpl Zdigits2.
  pose proof (digits2_pos_lower p) as Hd.
  set (d := Zpos (digits2_pos p)) in *.
  destruct (Z.max (d + e - JS.prec) (emin JS.prec JS.emax) - e) as [|n|n] eqn:Hn;
    simpl fst; simpl snd; rewrite ?shr_m_of_loc; try (split; lia).
  rewrite iter_pos_shr_1 by (rewrite shr_m_of_loc; lia).
  rewrite shr_m_of_loc. split; [|lia].
  assert (Hn' : Zpos n = d - JS.prec) by lia.
  apply Z.div_str_pos. split; [lia|].
  rewrite Hn'. etransitivity; [|exact Hd].
  apply Z.pow_le_mono_r; unfold JS.prec; lia.
Qed.

Lemma round_nearest_even_pos (m : Z) (l : location) :
  0 < m -> 0 < round_nearest_even m l.
Proof.
  intros Hm. destruct l as [|[]]; simpl; try lia.
  destruct (Z.even m); lia.
Qed.

Lemma binary_round_aux_pos (m e : Z) (l : location) :
  0 < m -> emin JS.prec JS.emax <= e ->
  positive_number (binary_round_aux JS.prec JS.emax false m e l).
Proof.
  intros Hm He. unfold binary_round_aux.
  destruct (shr_fexp_pos m e l Hm He) as [H1 H2].
  destruct (shr_fexp JS.prec JS.emax m e l) as [mrs1 e1]. simpl in H1, H2.
  pose proof (round_nearest_even_pos _ (loc_of_shr_record mrs1) H1) as H3.
  destruct (shr_fexp_pos _ e1 loc_Exact H3 H2) as [H4 _].
  destruct (shr_fexp JS.prec JS.emax _ e1 loc_Exact) as [mrs2 e2]. simpl in H4.
  destruct (shr_m mrs2) as [|q|q]; try lia.
  destruct (e2 <=? JS.emax - JS.prec)%Z; exact I.
Qed.

Lemma positive_number_ltb (x : JS.number) :
  positive_number x -> JS.ltb JS.pos_zero x = true.
Proof. destruct x as [s|[]| |[] m e]; simpl; intros H; try contradiction; reflexivity. Qed.

(** A positive number against +0, in the comparator's two directions. *)
Lemma sub_zero_positive (x : JS.number) :
  positive_number x ->
  JS.sub x JS.pos_zero = x /\ positive_number x
  /\ JS.ltb JS.pos_zero (JS.sub JS.pos_zero x) = false
  /\ JS.isNaN (JS.sub JS.pos_zero x) = false.
Proof. destruct x as [s|[]| |[] m e]; simpl; intros H; try contradiction; auto. Qed.

(** *** The comparator's sign is the order of the values *)

Lemma shr_fexp_snd (m e : Z) (l : location) :
  emin JS.prec JS.emax <= snd (shr_fexp JS.prec JS.emax m e l).
Proof.
  unfold shr_fexp, shr, fexp.
  destruct (Z.max (Zdigits2 m + e - JS.prec) (emin JS.prec JS.emax) - e) eqn:Hn;
    simpl snd; lia.
Qed.

(** Rounding keeps the sign it is given and lands on an exponent of the
    format. *)
Lemma binary_round_aux_shape (sx : bool) (m e : Z) (l : location) :
  match binary_round_aux JS.prec JS.emax sx m e l with
  | S754_finite s _ e' => s = sx /\ emin JS.prec JS.emax <= e'
  | S754_infinity s | S754_zero s => s = sx
  | S754_nan => True
  end.
Proof.
  unfold binary_round_aux.
  destruct (shr_fexp JS.prec JS.emax m e l) as [mrs1 e1].
  pose proof (shr_fexp_snd (round_nearest_even (shr_m mrs1) (loc_of_shr_record mrs1))
                e1 loc_Exact) as He.
  destruct (shr_fexp JS.prec JS.emax _ e1 loc_Exact) as [mrs2 e2]. simpl in He.
  destruct (shr_m mrs2); auto.
  destruct (e2 <=? JS.emax - JS.prec)%Z; auto.
Qed.

Lemma pos_iter_xO (m d : positive) : Zpos (Pos.iter xO m d) = Zpos m * 2 ^ Zpos d.
Proof.
  induction d as [|d IH] using Pos.peano_ind.
  - simpl. lia.
  - rewrite Pos.iter_succ, Pos2Z.inj_xO, IH, Pos2Z.inj_succ, Z.pow_succ_r by lia. ring.
Qed.

Lemma shl_align_fst (m : positive) (e e' : Z) :
  e' <= e -> Zpos (fst (shl_align m e e')) = Zpos m * 2 ^ (e - e').
Proof.
  unfold shl_align. intros H. destruct (e' - e) as [|d|d] eqn:Hd; simpl fst.
  - replace (e - e') with 0 by lia. lia.
  - lia.
  - rewrite pos_iter_xO. f_equal. f_equal. lia.
Qed.

Lemma binary_round_pos (d : positive) (e : Z) :
  emin JS.prec JS.emax <= e ->
  positive_number (binary_round JS.prec JS.emax false d e).
Proof.
  intros He. unfold binary_round.
  destruct (shl_align d e (fexp JS.prec JS.emax (Zpos (digits2_pos d) + e)))
    as [mz ez] eqn:Hs.
  apply binary_round_aux_pos; [lia|].
  unfold shl_align, fexp in Hs.
  destruct (Z.max (Zpos (digits2_pos d) + e - JS.prec) (emin JS.prec JS.emax) - e);
    injection Hs as _ <-; lia.
Qed.

Lemma binary_round_neg (d : positive) (e : Z) :
  JS.ltb JS.pos_zero
    (let v := binary_round JS.prec JS.emax true d e in
     if JS.isNaN v then JS.pos_zero else v) = false.
Proof.
  unfold binary_round. destruct (shl_align d e _) as [mz ez].
  pose proof (binary_round_aux_shape true (Zpos mz) ez loc_Exact) as H.
  destruct (binary_round_aux JS.prec JS.emax true (Zpos mz) ez loc_Exact)
    as [s|s| |s m' e']; simpl in *; try reflexivity.
  - now subst.
  - now destruct H as [-> _].
Qed.

Lemma binary_normalize_gt (D e : Z) :
  emin JS.prec JS.emax <= e ->
  JS.ltb JS.pos_zero
    (let v := binary_normalize JS.prec JS.emax D e false in
     if JS.isNaN v then JS.pos_zero else v) = (0 <? D).
Proof.
  intros He. destruct D as [|d|d]; simpl binary_normalize.
  - reflexivity.
  - pose proof (binary_round_pos d e He) as H.
    destruct (binary_round JS.prec JS.emax false d e) as [|[]| |[]];
      try contradiction; reflexivity.
  - apply binary_round_neg.
Qed.

Lemma cond_Zopp_mul (s : bool) (a b : Z) : cond_Zopp s (a * b) = cond_Zopp s a * b.
Proof. destruct s; simpl; ring. Qed.

(** On well-formed numbers the comparator says "behind" exactly when the
    value is the greater. *)
Lemma number_gt_spec (x y : JS.number) :
  well_formed x -> well_formed y ->
  (number_gt x y = true <-> ~ number_le x y).
Proof.
  unfold number_gt, number_le.
  destruct x as [sx|sx| |sx mx ex], y as [sy|sy| |sy my ey];
    try contradiction; intros Hx Hy.
  9: {
    simpl in Hx, Hy. unfold JS.sub, SFsub.
    rewrite binary_normalize_gt by lia.
    rewrite !shl_align_fst by lia. simpl side. unfold scaled.
    set (ez := Z.min ex ey).
    assert (HP : 0 < 2 ^ (ez - emin JS.prec JS.emax)) by (apply Z.pow_pos_nonneg; lia).
    replace (ex - emin JS.prec JS.emax) with ((ex - ez) + (ez - emin JS.prec JS.emax)) by lia.
    replace (ey - emin JS.prec JS.emax) with ((ey - ez) + (ez - emin JS.prec JS.emax)) by lia.
    rewrite !Z.pow_add_r by lia. rewrite !Z.mul_assoc, !cond_Zopp_mul.
    rewrite Z.ltb_lt.
    set (X := cond_Zopp sx (Zpos mx * 2 ^ (ex - ez))).
    set (Y := cond_Zopp sy (Zpos my * 2 ^ (ey - ez))).
    nia. }
  all: try (destruct sx); try (destruct sy); simpl.
  all: try (split; [intros H; try discriminate H; lia | intros H; try reflexivity; exfalso; lia]).
  all: simpl in Hx, Hy;
    match goal with
    | |- context [2 ^ ?k] => assert (0 < 2 ^ k) by (apply Z.pow_pos_nonneg; lia)
    end;
    split; [intros _; nia | intros _; reflexivity].
Qed.

Lemma number_le_trans (x y z : JS.number) :
  number_le x y -> number_le y z -> number_le x z.
Proof. unfold number_le. lia. Qed.

Lemma number_le_total (x y : JS.number) : number_le x y \/ number_le y x.
Proof. unfold number_le. lia. Qed.

Lemma number_le_dec (x y : JS.number) : number_le x y \/ ~ number_le x y.
Proof. unfold number_le. lia. Qed.

Lemma binary_round_aux_well_formed (sx : bool) (m e : Z) (l : location) :
  well_formed_or_NaN (binary_round_aux JS.prec JS.emax sx m e l).
Proof.
  pose proof (binary_round_aux_shape sx m e l) as H.
  destruct (binary_round_aux JS.prec JS.emax sx m e l); simpl; tauto.
Qed.

End FloatFacts.

(** ** Number() on strings of decimal digits *)
Section NumberFacts.

(** A decimal digit is nothing else the grammar looks for. *)
Lemma decimal_digit_only (c : ascii) (d : N) :
  JS.digit_value 10 c = Some d ->
  JS.isStrWhiteSpaceChar c = false
  /\ (JS.code c =? 43)%N = false /\ (JS.code c =? 45)%N = false
  /\ (JS.code c =? 120)%N = false /\ (JS.code c =? 88)%N = false
  /\ (JS.code c =? 111)%N = false /\ (JS.code c =? 79)%N = false
  /\ (JS.code c =? 98)%N = false /\ (JS.code c =? 66)%N = false
  /\ Ascii.eqb c "I" = false.
Proof.
  intros H.
  destruct c as [[] [] [] [] [] [] [] []]; vm_compute in H; try discriminate H;
    vm_compute; repeat split.
Qed.

Lemma digits_from_all (radix : N) (l : list ascii) :
  forall acc len n len',
    JS.digits_from radix acc len l = (n, len', []) ->
    Forall (fun c => exists d, JS.digit_value radix c = Some d) l.
Proof.
  induction l as [|c l IH]; intros acc len n len' H; [constructor|].
  simpl in H. destruct (JS.digit_value radix c) as [d|] eqn:Hc; [|discriminate].
  constructor; [now exists d | now apply IH in H].
Qed.

Lemma dropWhile_none {A} (p : A -> bool) (l : list A) :
  Forall (fun x => p x = false) l -> JS.dropWhile p l = l.
Proof. intros [|x l' Hx _]; simpl; [reflexivity | now rewrite Hx]. Qed.

Lemma trim_none (l : list ascii) :
  Forall (fun c => JS.isStrWhiteSpaceChar c = false) l -> JS.trim l = l.
Proof.
  intros H. unfold JS.trim. rewrite (dropWhile_none _ l H).
  rewrite dropWhile_none by now apply Forall_rev.
  apply rev_involutive.
Qed.

Lemma div_eucl_1 (a : Z) : Z.div_eucl a 1 = (a, 0).
Proof.
  destruct (Z.div_eucl a 1) as [q r] eqn:E.
  assert (Hq : q = a / 1) by (unfold Z.div; now rewrite E).
  assert (Hr : r = a mod 1) by (unfold Z.modulo; now rewrite E).
  rewrite Z.div_1_r in Hq. rewrite Z.mod_1_r in Hr. now subst.
Qed.

(** The Number value of a positive integer is positive (it may be
    +Infinity). *)
Lemma round_ratio_integer_positive (p : positive) :
  positive_number (JS.round_ratio false p 1).
Proof.
  unfold JS.round_ratio. change (Z.log2 1 + 56) with 56.
  rewrite div_eucl_1. change (new_location 1 0) with loc_Exact.
  apply binary_round_aux_pos.
  - rewrite Z.shiftl_mul_pow2 by lia. lia.
  - vm_compute. discriminate.
Qed.

Lemma unsigned_decimal_digits (c : ascii) (l : list ascii) (p : positive) (len : nat) :
  Ascii.eqb c "I" = false ->
  JS.digits_from 10 0 0 (c :: l) = (Npos p, Datatypes.S len, []) ->
  JS.unsigned_decimal false (c :: l) = JS.round_ratio false p 1.
Proof.
  intros HI Hd. unfold JS.unsigned_decimal.
  replace (String.eqb (string_of_list_ascii (c :: l)) "Infinity") with false
    by (simpl; now rewrite HI).
  rewrite Hd. cbn. now rewrite Pos.mul_1_r.
Qed.

(** Number() of a string of decimal digits that writes a positive
    integer is that integer, rounded to a double. *)
Lemma StringToNumber_decimal (s : string) (p : positive) :
  decimal_digits s = Some (Npos p) ->
  JS.StringToNumber s = JS.round_ratio false p 1.
Proof.
  unfold decimal_digits. intros H.
  destruct (JS.digits_from 10 0 0 (list_ascii_of_string s)) as [[n len] rest] eqn:Hd.
  destruct len as [|len]; [discriminate|]. destruct rest; [|discriminate].
  injection H as ->.
  pose proof (digits_from_all _ _ _ _ _ _ Hd) as Hall.
  unfold JS.StringToNumber. rewrite trim_none.
  2:{ eapply List.Forall_impl; [|exact Hall]. intros c [d Hc].
      now destruct (decimal_digit_only c d Hc). }
  destruct (list_ascii_of_string s) as [|c l]; [discriminate Hd|].
  inversion Hall as [|? ? [d Hc] Hall']; subst.
  destruct (decimal_digit_only c d Hc) as (_ & H43 & H45 & _ & _ & _ & _ & _ & _ & HI).
  cbv zeta. rewrite H43, H45.
  destruct l as [|c2 l].
  - now apply unsigned_decimal_digits with (len := len).
  - inversion Hall' as [|? ? [d2 Hc2] _]; subst.
    destruct (decimal_digit_only c2 d2 Hc2)
      as (_ & _ & _ & Hx & HX & Ho & HO & Hb & HB & _).
    rewrite Hx, HX, Ho, HO, Hb, HB. simpl orb. rewrite andb_false_r.
    now apply unsigned_decimal_digits with (len := len).
Qed.

(** Against the empty string, a positive decimal subContentId sorts
    behind, and not the other way round. *)
Lemma after_empty (s : string) (p : positive) :
  decimal_digits s = Some (Npos p) ->
  after s "" = true /\ after "" s = false.
Proof.
  intros H. unfold after, number_gt. rewrite (StringToNumber_decimal s p H).
  change (JS.StringToNumber "") with JS.pos_zero.
  destruct (sub_zero_positive _ (round_ratio_integer_positive p))
    as (H1 & H2 & H3 & H4).
  rewrite H1, H4, H3. split; [|reflexivity].
  destruct (JS.round_ratio false p 1) as [|[]| |[]]; try contradiction; reflexivity.
Qed.

(** Number() never yields a finite double below the format's least
    exponent. *)
Lemma round_ratio_well_formed (sx : bool) (p q : positive) :
  well_formed_or_NaN (JS.round_ratio sx p q).
Proof.
  unfold JS.round_ratio. destruct (Z.div_eucl _ _). apply binary_round_aux_well_formed.
Qed.

Lemma round_mv_well_formed (sx : bool) (m : N) (e10 : Z) :
  well_formed_or_NaN (JS.round_mv sx m e10).
Proof.
  unfold JS.round_mv. destruct m; [exact I|].
  destruct (0 <=? e10); apply round_ratio_well_formed.
Qed.

Ltac through_the_grammar :=
  repeat first
    [ exact I
    | apply round_mv_well_formed
    | match goal with
      | |- context [match ?x with _ => _ end] => destruct x
      end ].

Lemma unsigned_decimal_well_formed (sx : bool) (l : list ascii) :
  well_formed_or_NaN (JS.unsigned_decimal sx l).
Proof. unfold JS.unsigned_decimal. through_the_grammar. Qed.

Lemma non_decimal_well_formed (radix : N) (l : list ascii) :
  well_formed_or_NaN (JS.non_decimal radix l).
Proof. unfold JS.non_decimal. through_the_grammar. Qed.

Lemma StringToNumber_well_formed (s : string) :
  well_formed_or_NaN (JS.StringToNumber s).
Proof.
  unfold JS.StringToNumber.
  destruct (JS.trim (list_ascii_of_string s)) as [|c l]; [exact I|]. cbv zeta.
  repeat first
    [ apply unsigned_decimal_well_formed
    | apply non_decimal_well_formed
    | match goal with
      | |- context [match ?x with _ => _ end] => destruct x
      end ].
Qed.

Lemma key_well_formed (r : IContentUserData) :
  JS.isNaN (key r) = false -> well_formed (key r).
Proof.
  unfold key. intros H. pose proof (StringToNumber_well_formed (subContentId r)) as Hw.
  destruct (JS.StringToNumber (subContentId r)); try exact Hw. discriminate H.
Qed.

(** Number() at a few strings. *)
Example StringToNumber_samples :
  JS.StringToNumber "" = JS.pos_zero
  /\ JS.StringToNumber "  " = JS.pos_zero
  /\ JS.StringToNumber "10" = JS.of_Z 10
  /\ JS.StringToNumber " 1e1 " = JS.of_Z 10
  /\ JS.StringToNumber "0x1F" = JS.of_Z 31
  /\ JS.StringToNumber "-0" = S754_zero true
  /\ JS.StringToNumber "0.1" = S754_finite false 7205759403792794 (-56)
  /\ JS.StringToNumber "9007199254740993" = JS.of_Z 9007199254740992
  /\ JS.StringToNumber "1e400" = S754_infinity false
  /\ JS.StringToNumber "5e-324" = S754_finite false 1 (-1074)
  /\ JS.StringToNumber "sub-1" = S754_nan
  /\ JS.StringToNumber "1 2" = S754_nan
  /\ JS.StringToNumber "." = S754_nan.
Proof. vm_compute. repeat split. Qed.

End NumberFacts.

(** ** What the manager's methods compute *)
Section ManagerFacts.
Context {S : Type}.
Import ContentUserDataManager.

Lemma insert_by_subContentId (x y : IContentUserData) (l : list IContentUserData) :
  JS.insert bySubContentId x (y :: l) =
  if after (subContentId x) (subContentId y)
  then y :: JS.insert bySubContentId x l
  else x :: y :: l.
Proof. reflexivity. Qed.

Lemma insert_nil (x : IContentUserData) : JS.insert bySubContentId x [] = [x].
Proof. reflexivity. Qed.

Lemma sort_nil : JS.sort bySubContentId [] = [].
Proof. reflexivity. Qed.

Lemma sort_cons (x : IContentUserData) (l : list IContentUserData) :
  JS.sort bySubContentId (x :: l) = JS.insert bySubContentId x (JS.sort bySubContentId l).
Proof. reflexivity. Qed.

(** With a storage object, the preloaded sequence is the backend's list,
    sorted, filtered and mapped; the list is asked for once. *)
Lemma generate_configured (storage : Storage.t S) (contentId : ContentId)
    (user : IUser.t) (w : World S) states s' :
  Storage.listByContent storage contentId (IUser.id user) (backend w)
    = (Fulfilled states, s') ->
  generateContentUserDataIntegration (configured storage) contentId user w
  = (Fulfilled (Some (map serialize (preloaded (JS.sort bySubContentId states)))),
     called w s' (Call_listByContent contentId (IUser.id user))).
Proof.
  intros H. unfold generateContentUserDataIntegration, await, invoke. simpl.
  now rewrite H.
Qed.

(** A rejection of the backend's list is handed on. *)
Lemma generate_rejected (storage : Storage.t S) (contentId : ContentId)
    (user : IUser.t) (w : World S) e s' :
  Storage.listByContent storage contentId (IUser.id user) (backend w)
    = (Rejected e, s') ->
  generateContentUserDataIntegration (configured storage) contentId user w
  = (Rejected e, called w s' (Call_listByContent contentId (IUser.id user))).
Proof.
  intros H. unfold generateContentUserDataIntegration, await, invoke. simpl.
  now rewrite H.
Qed.

Lemma preloaded_sort (states : list IContentUserData) :
  Permutation (preloaded (JS.sort bySubContentId states)) (preloaded states).
Proof. apply filter_Permutation_bool, sort_Permutation. Qed.

(** Without a storage object, a save that does not invalidate does
    nothing. *)
Lemma saveContentUserData_unconfigured_save (contentId : ContentId)
    (dataType subContentId userState : string) (preload : bool)
    (user : IUser.t) (w : World S) :
  saveContentUserData unconfigured contentId dataType subContentId userState
    (JS.Boolean false) (JS.Boolean preload) user w = (Fulfilled tt, w).
Proof. reflexivity. Qed.

(** Without a storage object, the manager's own delete by user does
    nothing either. *)
Lemma deleteContentUserDataByUserId_unconfigured (contentId : ContentId)
    (userId : string) (requestingUser : IUser.t) (w : World S) :
  deleteContentUserDataByUserId unconfigured contentId userId requestingUser w
  = (Fulfilled tt, w).
Proof. reflexivity. Qed.

End ManagerFacts.

(** ** The sort puts the records in the order of their keys *)
Section SortedFacts.
Import ContentUserDataManager.

(** [a] is not behind [b] in the order of the values of their keys. *)
Let key_le (a b : IContentUserData) : Prop := number_le (key a) (key b).

Lemma after_spec (a b : IContentUserData) :
  well_formed (key a) -> well_formed (key b) ->
  (after (subContentId a) (subContentId b) = true <-> ~ key_le a b).
Proof. apply number_gt_spec. Qed.

Lemma insert_sorted (x : IContentUserData) (l : list IContentUserData) :
  well_formed (key x) -> Forall (fun r => well_formed (key r)) l ->
  StronglySorted key_le l ->
  StronglySorted key_le (JS.insert bySubContentId x l).
Proof.
  intros Hx. induction l as [|y l IH]; intros Hl Hs.
  - rewrite insert_nil. repeat constructor.
  - rewrite insert_by_subContentId.
    inversion Hl as [|? ? Hy Hl']; subst.
    apply StronglySorted_inv in Hs as [Hs Hyl].
    destruct (after (subContentId x) (subContentId y)) eqn:Hgt.
    + constructor; [now apply IH|].
      rewrite insert_Permutation. constructor; [|exact Hyl].
      apply after_spec in Hgt; [|exact Hx|exact Hy].
      destruct (number_le_total (key x) (key y)); [contradiction|assumption].
    + assert (Hxy : key_le x y).
      { destruct (number_le_dec (key x) (key y)) as [H|H]; [exact H|].
        apply after_spec in H; [congruence|exact Hx|exact Hy]. }
      constructor; [now constructor|].
      constructor; [exact Hxy|].
      eapply List.Forall_impl; [|exact Hyl].
      intros z Hz. exact (number_le_trans _ _ _ Hxy Hz).
Qed.

Lemma sort_sorted (l : list IContentUserData) :
  Forall (fun r => well_formed (key r)) l ->
  StronglySorted key_le (JS.sort bySubContentId l).
Proof.
  induction l as [|x l IH]; intros Hl.
  - constructor.
  - rewrite sort_cons. inversion Hl as [|? ? Hx Hl']; subst.
    apply insert_sorted; [exact Hx| |now apply IH].
    now rewrite sort_Permutation.
Qed.

Lemma filter_sorted {A} (R : A -> A -> Prop) (p : A -> bool) (l : list A) :
  StronglySorted R l -> StronglySorted R (List.filter p l).
Proof.
  induction 1 as [|x l Hs IH Hx]; simpl; [constructor|].
  destruct (p x); [|exact IH].
  constructor; [exact IH|].
  apply List.Forall_forall. intros y Hy. apply filter_In in Hy as [Hy _].
  revert y Hy. now apply List.Forall_forall.
Qed.

(** When every subContentId reads as a number, the surviving records
    are in ascending order of these numbers. *)
Lemma preloaded_sorted (states : list IContentUserData) :
  Forall (fun r => JS.isNaN (key r) = false) states ->
  StronglySorted (fun a b => number_le (key a) (key b))
    (preloaded (JS.sort bySubContentId states)).
Proof.
  intros H. apply filter_sorted, sort_sorted.
  eapply List.Forall_impl; [|exact H]. intros r. apply key_well_formed.
Qed.

Lemma sorted_before {A} (R : A -> A -> Prop) (l1 l2 : list A) (a b : A) :
  StronglySorted R (l1 ++ a :: l2) -> In b l2 -> R a b.
Proof.
  induction l1 as [|x l1 IH]; simpl; intros Hs Hb.
  - apply StronglySorted_inv in Hs as [_ H].
    rewrite List.Forall_forall in H. now apply H.
  - apply StronglySorted_inv in Hs as [Hs _]. now apply IH.
Qed.

Lemma positive_above_zero (x : JS.number) :
  positive_number x -> well_formed_or_NaN x -> ~ number_le x JS.pos_zero.
Proof.
  destruct x as [s|[]| |[] m ex]; simpl; try contradiction;
    unfold number_le; simpl; intros _ Hw; [lia|].
  assert (0 < 2 ^ (ex - emin JS.prec JS.emax)) by (apply Z.pow_pos_nonneg; lia).
  nia.
Qed.

End SortedFacts.

(** ** saveContentUserData: validation and the missing storage object *)
Section SaveFacts.
Context {S : Type}.
Import ContentUserDataManager.

(** C1, at the input where the code departs from it: without a storage
    object and with [invalidate] true, saveContentUserData does not
    return quietly; it rejects with the TypeError of reading
    [deleteContentUserDataByUserId] off undefined. *)
Theorem saveContentUserData_unconfigured_invalidate
    (contentId : ContentId) (dataType subContentId userState : string)
    (preload : bool) (user : IUser.t) (w : World S) :
  saveContentUserData unconfigured contentId dataType subContentId userState
    (JS.Boolean true) (JS.Boolean preload) user w
  = (Rejected
       (TypeError
          "Cannot read properties of undefined (reading 'deleteContentUserDataByUserId')"),
     w).
Proof. reflexivity. Qed.

(** C2: when [invalidate] or [preload] is not of type boolean,
    saveContentUserData rejects with its invalid-arguments error,
    whatever the storage object is (or is not), and the world is what it
    was: no call has been made on the storage object and the backend's
    state is untouched. *)
Theorem saveContentUserData_rejects_non_boolean
    (this : ContentUserDataManager.t S)
    (contentId : ContentId) (dataType subContentId userState : string)
    (invalidate preload : JS.Value) (user : IUser.t) (w : World S) :
  JS.typeof invalidate <> "boolean" \/ JS.typeof preload <> "boolean" ->
  saveContentUserData this contentId dataType subContentId userState
    invalidate preload user w
  = (Rejected (Error invalid_arguments), w).
Proof.
  intros H. unfold saveContentUserData.
  destruct H as [H|H]; apply String.eqb_neq in H; rewrite H; simpl.
  - reflexivity.
  - now rewrite orb_true_r.
Qed.

End SaveFacts.

(** Sorting a short list whose subContentIds are known. *)
Ltac order_known :=
  repeat rewrite sort_cons; rewrite sort_nil;
  repeat
    (first [ rewrite insert_nil | rewrite insert_by_subContentId ];
     repeat match goal with
       | H : subContentId _ = _ |- _ => rewrite !H
       end;
     repeat match goal with
       | |- context [after ?s ?t] =>
           let b := eval vm_compute in (after s t) in
           replace (after s t) with b by (vm_compute; reflexivity)
       end;
     cbv iota).

(** ** generateContentUserDataIntegration *)
Section GenerateFacts.
Context {S : Type}.
Import ContentUserDataManager.

Variable storage : Storage.t S.
Variables (contentId : ContentId) (user : IUser.t) (w : World S).
Variables (states : list IContentUserData) (s' : S).
Hypothesis listed :
  Storage.listByContent storage contentId (IUser.id user) (backend w)
  = (Fulfilled states, s').

(** C4: the records that survive are the records of the backend's list
    whose preload flag is true, each as often as it is listed, and no
    record whose flag is false; for records "0" (preload), "1" (no
    preload) and "2" (preload), listed in any order, the result has just
    the two elements of "0" and of "2", in that order. *)
Theorem generate_keeps_the_preloaded :
  exists survivors,
    generateContentUserDataIntegration (configured storage) contentId user w
    = (Fulfilled (Some (map serialize survivors)),
       called w s' (Call_listByContent contentId (IUser.id user)))
    /\ Permutation survivors (preloaded states)
    /\ (forall r, In r survivors <-> In r states /\ preload r = true)
    /\ (forall r0 r1 r2,
          subContentId r0 = "0" -> preload r0 = true ->
          subContentId r1 = "1" -> preload r1 = false ->
          subContentId r2 = "2" -> preload r2 = true ->
          Permutation [r0; r1; r2] states ->
          survivors = [r0; r2]).
Proof.
  exists (preloaded (JS.sort bySubContentId states)).
  split; [now apply generate_configured|].
  split; [apply preloaded_sort|].
  split.
  - intros r. unfold preloaded. rewrite filter_In.
    split; intros [Hin Hp]; (split; [|exact Hp]).
    + now apply (Permutation_in r (sort_Permutation bySubContentId states)).
    + now apply (Permutation_in r (Permutation_sym (sort_Permutation bySubContentId states))).
  - intros r0 r1 r2 H0 P0 H1 P1 H2 P2 Hperm.
    apply Permutation_length_3_inv in Hperm.
    destruct Hperm as [->|[->|[->|[->|[->| ->]]]]];
      order_known; unfold preloaded; simpl; rewrite ?P0, ?P1, ?P2; reflexivity.
Qed.

(** C6: without a storage object the method fulfils with undefined and
    calls nothing; with one whose list holds no record marked for
    preloading it fulfils with the empty array. *)
Theorem generate_absent_or_empty :
  (forall r, In r states -> preload r = false) ->
  generateContentUserDataIntegration unconfigured contentId user w
  = (Fulfilled None, w)
  /\ generateContentUserDataIntegration (configured storage) contentId user w
     = (Fulfilled (Some []),
        called w s' (Call_listByContent contentId (IUser.id user))).
Proof.
  intros Hnone. split; [reflexivity|].
  rewrite (generate_configured _ _ _ _ _ _ listed).
  unfold preloaded. rewrite filter_none; [reflexivity|].
  intros r Hr. apply Hnone.
  now apply (Permutation_in r (sort_Permutation bySubContentId states)).
Qed.

(** C7: the result is the surviving records (the records of the list
    marked for preloading, each as often as it is listed) mapped one by
    one, in their order, to an object whose only key is the record's
    dataType and whose value there is its userState; that order is the
    ascending order of the subContentIds whenever all those listed read as
    numbers; nothing is merged, so the result is as long as the list has
    records marked for preloading. *)
Theorem generate_one_object_per_record :
  exists survivors,
    generateContentUserDataIntegration (configured storage) contentId user w
    = (Fulfilled
         (Some (map (fun r => ({[ dataType r := userState r ]}
                               : ISerializedContentUserData)) survivors)),
       called w s' (Call_listByContent contentId (IUser.id user)))
    /\ Permutation survivors (preloaded states)
    /\ (numeric states ->
        StronglySorted (fun a b => number_le (key a) (key b)) survivors)
    /\ length (map serialize survivors) = length (preloaded states)
    /\ forall r : IContentUserData,
         ({[ dataType r := userState r ]} : ISerializedContentUserData) !! dataType r
         = Some (userState r)
         /\ dom ({[ dataType r := userState r ]} : ISerializedContentUserData)
            = {[ dataType r ]}
         /\ size ({[ dataType r := userState r ]} : ISerializedContentUserData) = 1%nat.
Proof.
  exists (preloaded (JS.sort bySubContentId states)).
  split; [now apply generate_configured|].
  split; [apply preloaded_sort|].
  split; [apply preloaded_sorted|].
  split.
  - rewrite length_map. apply Permutation_length, preloaded_sort.
  - intros r. split; [apply lookup_singleton_eq|].
    split; [apply dom_singleton_L | apply map_size_singleton].
Qed.

(** C5: the order is that of the subContentIds read as numbers, not as
    text. Whenever every subContentId listed reads as a number, the
    surviving records come out in ascending order of these numbers; and
    preloaded records "2", "10" and "1", listed in any order, come out as
    "1", "2", "10" (as text, "10" would come before "2"). *)
Theorem generate_orders_numerically :
  (Forall (fun r => JS.isNaN (key r) = false) states ->
   exists survivors,
     generateContentUserDataIntegration (configured storage) contentId user w
     = (Fulfilled (Some (map serialize survivors)),
        called w s' (Call_listByContent contentId (IUser.id user)))
     /\ Permutation survivors (preloaded states)
     /\ StronglySorted (fun a b => number_le (key a) (key b)) survivors)
  /\ (forall r2 r10 r1 : IContentUserData,
        subContentId r2 = "2" -> subContentId r10 = "10" -> subContentId r1 = "1" ->
        preload r2 = true -> preload r10 = true -> preload r1 = true ->
        Permutation [r2; r10; r1] states ->
        generateContentUserDataIntegration (configured storage) contentId user w
        = (Fulfilled (Some [serialize r1; serialize r2; serialize r10]),
           called w s' (Call_listByContent contentId (IUser.id user))))
  /\ String.ltb "10" "2" = true.
Proof.
  split; [|split; [|reflexivity]].
  - intros Hnum. exists (preloaded (JS.sort bySubContentId states)).
    split; [now apply generate_configured|].
    split; [apply preloaded_sort | now apply preloaded_sorted].
  - intros r2 r10 r1 H2 H10 H1 P2 P10 P1 Hperm.
    rewrite (generate_configured _ _ _ _ _ _ listed).
    apply Permutation_length_3_inv in Hperm.
    destruct Hperm as [->|[->|[->|[->|[->| ->]]]]];
      order_known; unfold preloaded; simpl; rewrite ?P2, ?P10, ?P1; reflexivity.
Qed.

End GenerateFacts.

(** ** The reference backend keeps the contract *)
Module MemoryStorageFacts.
Import MemoryStorage.

Lemma hasKey_ofUser c uid dt sc r : hasKey c uid dt sc r = true -> ofUser c uid r = true.
Proof.
  unfold hasKey. intros H.
  apply andb_true_iff in H as [H _]. now apply andb_true_iff in H as [H _].
Qed.

Lemma find_filter_out {A} (p q : A -> bool) (l : Datatypes.list A) :
  (forall x, p x = true -> q x = true) ->
  List.find p (List.filter (fun x => negb (q x)) l) = None.
Proof.
  intros Hpq. induction l as [|x l IH]; simpl; [reflexivity|].
  destruct (q x) eqn:Hq; simpl; [exact IH|].
  destruct (p x) eqn:Hp; [|exact IH].
  apply Hpq in Hp. congruence.
Qed.

Lemma find_app_last {A} (p : A -> bool) (l : Datatypes.list A) (x : A) :
  List.find p l = None -> p x = true -> List.find p (l ++ [x]) = Some x.
Proof.
  induction l as [|y l IH]; simpl; intros Hl Hx.
  - now rewrite Hx.
  - destruct (p y); [discriminate|]. now apply IH.
Qed.

#[export] Instance lawful : LawfulStorage storage.
Proof.
  split.
  - intros c dt sc v pre u s s' H. cbn in H. injection H as <-.
    eexists _, _. split.
    + cbn. unfold load. cbn. rewrite find_app_last; [reflexivity| |].
      * now apply find_filter_out.
      * unfold hasKey, ofUser. cbn. now rewrite !String.eqb_refl.
    + reflexivity.
  - intros c uid req s s' H dt sc u <-. cbn in H. injection H as <-.
    eexists. cbn. unfold load. cbn. rewrite find_filter_out; [reflexivity|].
    intros x. apply hasKey_ofUser.
Qed.

End MemoryStorageFacts.

(** ** Saving, invalidating and loading through a lawful backend *)
Section RoundTrip.
Context {S : Type}.
Import ContentUserDataManager.

Variable storage : Storage.t S.
Context `{Lawful : !LawfulStorage storage}.

(** C3: with a storage object and [invalidate] true, saveContentUserData
    is the backend's delete of everything the user has under the content:
    one call of deleteContentUserDataByUserId with (contentId, user.id,
    user), whose outcome is the method's; dataType, subContentId,
    userState and preload play no part; and once that delete has
    fulfilled, loadContentUserData finds nothing for the user under the
    content, whatever dataType and subContentId it is asked for. *)
Theorem saveContentUserData_invalidate_deletes
    (contentId : ContentId) (dataType subContentId userState : string)
    (preload : bool) (user : IUser.t) (w : World S) :
  saveContentUserData (configured storage) contentId dataType subContentId
    userState (JS.Boolean true) (JS.Boolean preload) user w
  = invoke (Call_deleteContentUserDataByUserId contentId (IUser.id user) user)
      (Storage.deleteContentUserDataByUserId storage contentId (IUser.id user) user) w
  /\ (forall dataType' subContentId' userState' preload',
        saveContentUserData (configured storage) contentId dataType' subContentId'
          userState' (JS.Boolean true) (JS.Boolean preload') user w
        = saveContentUserData (configured storage) contentId dataType subContentId
            userState (JS.Boolean true) (JS.Boolean preload) user w)
  /\ (forall w',
        saveContentUserData (configured storage) contentId dataType subContentId
          userState (JS.Boolean true) (JS.Boolean preload) user w
        = (Fulfilled tt, w') ->
        calls w' = (calls w ++
                    [Call_deleteContentUserDataByUserId contentId (IUser.id user) user])%list
        /\ forall dt sc,
             fst (loadContentUserData (configured storage) contentId dt sc user w')
             = Fulfilled None).
Proof.
  split; [reflexivity|]. split; [reflexivity|].
  intros w' H. cbn in H. unfold invoke in H.
  destruct (Storage.deleteContentUserDataByUserId storage contentId (IUser.id user)
              user (backend w)) as [r s1] eqn:Hdel.
  injection H as -> <-. split; [reflexivity|].
  intros dt sc. cbn. unfold invoke. cbn.
  destruct (load_after_delete _ _ _ _ _ Hdel dt sc user eq_refl) as [s2 ->].
  reflexivity.
Qed.


End RoundTrip.

(** ** The empty subContentId *)
Section EmptySubContentId.
Import ContentUserDataManager.

(** The empty subContentId is the number +0, not NaN. Against "0" the
    comparator answers +0 in both directions, and [sort] leaves the two as
    they were listed; against a string of decimal digits that writes a
    positive integer it answers a negative number, and [sort] puts the
    record with the empty subContentId first, whichever way the two were
    listed; and in no result over subContentIds that all read as numbers
    does the record with the empty subContentId come behind the positive
    one. *)
Theorem empty_subContentId_sorts_as_zero (e z a : IContentUserData) (p : positive) :
  subContentId e = "" -> subContentId z = "0" ->
  decimal_digits (subContentId a) = Some (Npos p) ->
  JS.StringToNumber (subContentId e) = JS.pos_zero
  /\ JS.isNaN (bySubContentId e z) = false
  /\ JS.SortCompare bySubContentId e z = JS.pos_zero
  /\ JS.SortCompare bySubContentId z e = JS.pos_zero
  /\ JS.sort bySubContentId [e; z] = [e; z]
  /\ JS.sort bySubContentId [z; e] = [z; e]
  /\ JS.ltb (JS.SortCompare bySubContentId e a) JS.pos_zero = true
  /\ JS.sort bySubContentId [e; a] = [e; a]
  /\ JS.sort bySubContentId [a; e] = [e; a]
  /\ (forall states : list IContentUserData,
        Forall (fun r => JS.isNaN (key r) = false) states ->
        forall l1 l2 l3,
          preloaded (JS.sort bySubContentId states) <> (l1 ++ a :: l2 ++ e :: l3)%list).
Proof.
  intros He Hz Ha.
  destruct (after_empty _ p Ha) as [Hae Hea].
  unfold JS.SortCompare, bySubContentId.
  repeat rewrite sort_cons; rewrite sort_nil, !insert_nil, !insert_by_subContentId.
  rewrite He, Hz, Hae, Hea.
  repeat (split; [reflexivity|]).
  pose proof (round_ratio_integer_positive p) as Hp.
  split; [|split; [reflexivity|split; [reflexivity|]]].
  - rewrite (StringToNumber_decimal _ p Ha).
    change (JS.StringToNumber "") with JS.pos_zero.
    destruct (JS.round_ratio false p 1) as [|[]| |[]]; try contradiction; reflexivity.
  - intros states Hnum l1 l2 l3 Heq.
    pose proof (preloaded_sorted states Hnum) as Hs.
    unfold bySubContentId in Hs. rewrite Heq in Hs.
    apply (sorted_before _ _ _ _ e) in Hs; [|apply in_or_app; right; now left].
    unfold key in Hs. rewrite He, (StringToNumber_decimal _ p Ha) in Hs.
    revert Hs. apply positive_above_zero; [exact Hp|apply round_ratio_well_formed].
Qed.

End EmptySubContentId.

(** ** The controller's reading of the wire flags *)
Section ControllerFacts.
Import ContentUserDataController.

Lemma number_one : JS.of_Z 1 = S754_finite false 4503599627370496 (-52).
Proof. reflexivity. Qed.

Lemma eqb_one (x : JS.number) : JS.eqb x (JS.of_Z 1) = true <-> x = JS.of_Z 1.
Proof.
  rewrite number_one. split; [|intros ->; reflexivity].
  destruct x as [s|[]| |[] m e]; try discriminate.
  unfold JS.eqb, SFeqb, SFcompare. intros H.
  destruct (Z.compare e (-52)) eqn:He; try discriminate H.
  apply Z.compare_eq in He.
  destruct (Pos.compare_cont Eq m 4503599627370496) eqn:Hm; try discriminate H.
  apply Pos.compare_eq in Hm. now subst.
Qed.

(** The wire values the controller takes for true. *)
Lemma strict_equal_one (v : JS.Value) :
  JS.strict_equal v (JS.Number (JS.of_Z 1)) || JS.strict_equal v (JS.String "1") = true
  <-> v = JS.Number (JS.of_Z 1) \/ v = JS.String "1".
Proof.
  split.
  - intros H. apply orb_true_iff in H as [H|H].
    + left. destruct v; try discriminate. simpl in H. apply eqb_one in H. now subst.
    + right. destruct v; try discriminate. simpl in H. apply String.eqb_eq in H. now subst.
  - intros [->| ->]; reflexivity.
Qed.

(** C9: postContentUserData calls the manager once, with the path
    parameters, body.data and the user as they are, and with two booleans
    for invalidate and preload; each is true exactly when the wire value
    is the number 1 or the string "1", so that the boolean true and the
    string "true" are both passed as false; a fulfilled call is answered
    with status 200 and no body. *)
Theorem postContentUserData_reads_flags (req : Request) :
  exists inv pre : bool,
    (forall (W : Type)
            (createOrUpdateContentUserData :
               ContentId -> string -> string -> string -> bool -> bool ->
               IUser.t -> Async W unit) (w : W),
        postContentUserData createOrUpdateContentUserData req w
        = await
            (createOrUpdateContentUserData (contentId (params req))
               (dataType (params req)) (subContentId (params req))
               (data (body req)) inv pre (user req))
            (fun _ => resolve {| statusCode := 200; ended := true |}) w)
    /\ (inv = true <->
        invalidate (body req) = JS.Number (JS.of_Z 1)
        \/ invalidate (body req) = JS.String "1")
    /\ (pre = true <->
        preload (body req) = JS.Number (JS.of_Z 1)
        \/ preload (body req) = JS.String "1")
    /\ (invalidate (body req) = JS.Boolean true \/ invalidate (body req) = JS.String "true"
        -> inv = false)
    /\ (preload (body req) = JS.Boolean true \/ preload (body req) = JS.String "true"
        -> pre = false).
Proof.
  eexists _, _. split; [intros; reflexivity|].
  split; [apply strict_equal_one|]. split; [apply strict_equal_one|].
  split; intros [-> | ->]; reflexivity.
Qed.

End ControllerFacts.

(** ** The statements at sample data *)
Module Witnesses.
Import ContentUserDataManager MemoryStorage Sample.

Lemma saveContentUserData_rejects_non_boolean_witness :
  saveContentUserData (configured storage) "c1" "state" "0" "zero"
    (JS.String "true") (JS.Boolean false) alice (holding [s0])
  = (Rejected (Error invalid_arguments), holding [s0]).
Proof.
  apply saveContentUserData_rejects_non_boolean. left. simpl. discriminate.
Defined.

Lemma generate_keeps_the_preloaded_witness :
  generateContentUserDataIntegration (configured storage) "c1" alice
    (holding [s2; s1; s0])
  = (Fulfilled (Some [serialize s0; serialize s2]),
     called (holding [s2; s1; s0]) (backend (holding [s2; s1; s0]))
       (Call_listByContent "c1" "alice")).
Proof.
  destruct (generate_keeps_the_preloaded storage "c1" alice (holding [s2; s1; s0])
              [s2; s1; s0] _ eq_refl) as (survivors & Hrun & _ & _ & Hex).
  rewrite Hrun.
  rewrite (Hex s0 s1 s2 eq_refl eq_refl eq_refl eq_refl eq_refl eq_refl).
  - reflexivity.
  - apply Permutation_rev.
Defined.

Lemma generate_orders_numerically_witness :
  generateContentUserDataIntegration (configured storage) "c1" alice
    (holding [s2; s10; p1])
  = (Fulfilled (Some [serialize p1; serialize s2; serialize s10]),
     called (holding [s2; s10; p1]) (backend (holding [s2; s10; p1]))
       (Call_listByContent "c1" "alice")).
Proof.
  destruct (generate_orders_numerically storage "c1" alice (holding [s2; s10; p1])
              [s2; s10; p1] _ eq_refl) as (_ & Hex & _).
  apply (Hex s2 s10 p1); reflexivity.
Defined.

Lemma generate_absent_or_empty_witness :
  generateContentUserDataIntegration unconfigured "c1" alice (holding [s1; lazy1])
  = (Fulfilled None, holding [s1; lazy1])
  /\ generateContentUserDataIntegration (configured storage) "c1" alice
       (holding [s1; lazy1])
     = (Fulfilled (Some []),
        called (holding [s1; lazy1]) (backend (holding [s1; lazy1]))
          (Call_listByContent "c1" "alice")).
Proof.
  apply (generate_absent_or_empty storage "c1" alice (holding [s1; lazy1])
           [s1; lazy1] _ eq_refl).
  intros r [<-|[<-|[]]]; reflexivity.
Defined.

Lemma generate_one_object_per_record_witness :
  exists survivors,
    generateContentUserDataIntegration (configured storage) "c1" alice
      (holding [s2; s1; s0; p1])
    = (Fulfilled
         (Some (map (fun r => ({[ dataType r := userState r ]}
                               : ISerializedContentUserData)) survivors)),
       called (holding [s2; s1; s0; p1]) (backend (holding [s2; s1; s0; p1]))
         (Call_listByContent "c1" "alice"))
    /\ length (map serialize survivors) = 3%nat.
Proof.
  destruct (generate_one_object_per_record storage "c1" alice
              (holding [s2; s1; s0; p1]) [s2; s1; s0; p1] _ eq_refl)
    as (survivors & Hrun & _ & _ & Hlen & _).
  exists survivors. split; [exact Hrun|]. rewrite Hlen. reflexivity.
Defined.

Lemma saveContentUserData_invalidate_deletes_witness :
  fst (loadContentUserData (configured storage) "c1" "state" "2" alice
         (snd (saveContentUserData (configured storage) "c1" "other" "7" "ignored"
                 (JS.Boolean true) (JS.Boolean true) alice (holding [s0; s1; s2]))))
  = Fulfilled None.
Proof.
  destruct (saveContentUserData_invalidate_deletes storage (Lawful := MemoryStorageFacts.lawful)
              "c1" "other" "7" "ignored" true alice (holding [s0; s1; s2]))
    as (_ & _ & Hload).
  destruct (Hload _ eq_refl) as [_ Hnone]. apply Hnone.
Defined.


End Witnesses.

(** * Further properties of the manager and the controller *)

(** ** The manager and its storage object *)
Section ManagerDiscipline.
Context {S : Type}.
Import ContentUserDataManager.

Lemma invoke_called {A} (c : StorageCall) (method : Async S A) (w : World S) :
  snd (invoke c method w) = called w (snd (method (backend w))) c
  /\ fst (invoke c method w) = fst (method (backend w)).
Proof. unfold invoke. destruct (method (backend w)); split; reflexivity. Qed.

Lemma invoke_calls {A} (c : StorageCall) (method : Async S A) (w : World S) :
  calls (snd (invoke c method w)) = (calls w ++ [c])%list.
Proof. now rewrite (proj1 (invoke_called c method w)). Qed.

Lemma called_inj (w : World S) (s1 s2 : S) (c1 c2 : StorageCall) :
  called w s1 c1 = called w s2 c2 -> s1 = s2 /\ c1 = c2.
Proof.
  unfold called. intros H. injection H as Hs Hc.
  apply app_inj_tail in Hc as [_ Hc]. now split.
Qed.

Lemma called_fresh (w : World S) (s1 : S) (c : StorageCall) : called w s1 c <> w.
Proof.
  intros H. apply (f_equal (fun x => length (calls x))) in H.
  unfold called in H. simpl in H. rewrite length_app in H. simpl in H. lia.
Qed.

(** X1: whatever the method, the manager and the input: the calls made
    on the storage object afterwards are the calls made before, or these
    and one more; a manager without a storage object makes none and leaves
    the world as it is. *)
Theorem manager_calls_storage_at_most_once
    (this : ContentUserDataManager.t S) (w : World S)
    (contentId : ContentId) (dataType subContentId userState userId : string)
    (invalidate preload : JS.Value)
    (score maxScore opened finished completionTime : JS.number)
    (user : IUser.t) :
  let once (w' : World S) :=
    (calls w' = calls w \/ exists c, calls w' = (calls w ++ [c])%list)
    /\ (contentUserDataStorage this = None -> w' = w) in
  once (snd (loadContentUserData this contentId dataType subContentId user w))
  /\ once (snd (saveContentUserData this contentId dataType subContentId userState
                  invalidate preload user w))
  /\ once (snd (deleteContentUserDataByUserId this contentId userId user w))
  /\ once (snd (deleteAllContentUserDataByContentId this contentId user w))
  /\ once (snd (generateContentUserDataIntegration this contentId user w))
  /\ once (snd (setFinished this contentId score maxScore opened finished
                  completionTime user w)).
Proof.
  cbv zeta. destruct this as [[storage|]].
  - repeat split; try discriminate.
    + right. eexists. apply invoke_calls.
    + unfold saveContentUserData. simpl contentUserDataStorage.
      destruct (negb _ || negb _); [now left|].
      destruct (JS.ToBoolean invalidate); right; eexists;
        apply invoke_calls.
    + right. eexists. apply invoke_calls.
    + right. eexists. apply invoke_calls.
    + right. unfold generateContentUserDataIntegration, await, invoke. simpl.
      destruct (Storage.listByContent storage contentId (IUser.id user) (backend w))
        as [[states|e] s1]; eexists; reflexivity.
    + right. unfold setFinished, await, invoke. simpl.
      destruct (Storage.saveFinishedDataForUser storage contentId score maxScore opened
                  finished completionTime user (backend w))
        as [[[]|e] s1]; eexists; reflexivity.
  - assert (Hsave : snd (saveContentUserData {| contentUserDataStorage := None |}
                           contentId dataType subContentId userState invalidate
                           preload user w) = w).
    { unfold saveContentUserData. simpl.
      destruct (negb _ || negb _); [reflexivity|].
      destruct (JS.ToBoolean invalidate); reflexivity. }
    repeat split; try (now left); try reflexivity; try (intros _; exact Hsave).
    left. now rewrite Hsave.
Qed.

(** X2: what saveContentUserData can ask of the storage object: a delete of
    all the user has under the content, when [invalidate] is true, or a
    save under the key given with the payload and the preload flag given
    and with [invalidate] false. The backend's save is never called with
    [invalidate] true, and nothing is called with arguments that are not
    booleans. *)
Theorem saveContentUserData_calls
    (this : ContentUserDataManager.t S) (w : World S)
    (contentId : ContentId) (dataType subContentId userState : string)
    (invalidate preload : JS.Value) (user : IUser.t)
    (c : StorageCall) (s' : S) :
  snd (saveContentUserData this contentId dataType subContentId userState
         invalidate preload user w) = called w s' c ->
  exists pre : bool,
    preload = JS.Boolean pre
    /\ ((invalidate = JS.Boolean true
         /\ c = Call_deleteContentUserDataByUserId contentId (IUser.id user) user)
        \/ (invalidate = JS.Boolean false
            /\ c = Call_saveContentUserData contentId dataType subContentId userState
                     false pre user)).
Proof.
  unfold saveContentUserData.
  destruct invalidate as [| |inv| | | | | |], preload as [| |pre| | | | | |];
    simpl; try (intros H; symmetry in H; now apply called_fresh in H).
  destruct this as [[storage|]]; simpl.
  - destruct inv; intros H;
      rewrite (proj1 (invoke_called _ _ _)) in H; apply called_inj in H as [_ <-];
      exists pre; split; auto.
  - destruct inv; simpl; intros H; symmetry in H; now apply called_fresh in H.
Qed.

End ManagerDiscipline.

(** ** The comparator of generateContentUserDataIntegration *)
Section ComparatorFacts.
Import ContentUserDataManager.

Lemma binary_round_aux_signed (sx : bool) (m e : Z) (l : location) :
  0 < m -> emin JS.prec JS.emax <= e ->
  match binary_round_aux JS.prec JS.emax sx m e l with
  | S754_finite s _ _ | S754_infinity s => s = sx
  | _ => False
  end.
Proof.
  intros Hm He. unfold binary_round_aux.
  destruct (shr_fexp_pos m e l Hm He) as [H1 H2].
  destruct (shr_fexp JS.prec JS.emax m e l) as [mrs1 e1]. simpl in H1, H2.
  pose proof (round_nearest_even_pos _ (loc_of_shr_record mrs1) H1) as H3.
  destruct (shr_fexp_pos _ e1 loc_Exact H3 H2) as [H4 _].
  destruct (shr_fexp JS.prec JS.emax _ e1 loc_Exact) as [mrs2 e2]. simpl in H4.
  destruct (shr_m mrs2) as [|q|q]; try lia.
  destruct (e2 <=? JS.emax - JS.prec); reflexivity.
Qed.

Lemma binary_round_signed (sx : bool) (d : positive) (e : Z) :
  emin JS.prec JS.emax <= e ->
  match binary_round JS.prec JS.emax sx d e with
  | S754_finite s _ _ | S754_infinity s => s = sx
  | _ => False
  end.
Proof.
  intros He. unfold binary_round.
  destruct (shl_align d e (fexp JS.prec JS.emax (Zpos (digits2_pos d) + e)))
    as [mz ez] eqn:Hs.
  apply binary_round_aux_signed; [lia|].
  unfold shl_align, fexp in Hs.
  destruct (Z.max (Zpos (digits2_pos d) + e - JS.prec) (emin JS.prec JS.emax) - e);
    injection Hs as _ <-; lia.
Qed.

Lemma binary_normalize_lt (D e : Z) :
  emin JS.prec JS.emax <= e ->
  JS.ltb
    (let v := binary_normalize JS.prec JS.emax D e false in
     if JS.isNaN v then JS.pos_zero else v)
    JS.pos_zero = (D <? 0).
Proof.
  intros He. destruct D as [|d|d]; simpl binary_normalize.
  - reflexivity.
  - pose proof (binary_round_signed false d e He) as H.
    destruct (binary_round JS.prec JS.emax false d e) as [|s| |s m' e'];
      try contradiction; subst; reflexivity.
  - pose proof (binary_round_signed true d e He) as H.
    destruct (binary_round JS.prec JS.emax true d e) as [|s| |s m' e'];
      try contradiction; subst; reflexivity.
Qed.

(** The other direction of [number_gt_spec]: the comparator says "before"
    exactly when the value is the smaller. *)
Lemma number_lt_spec (x y : JS.number) :
  well_formed x -> well_formed y ->
  (JS.ltb (let v := JS.sub x y in if JS.isNaN v then JS.pos_zero else v) JS.pos_zero
   = true <-> ~ number_le y x).
Proof.
  unfold number_le.
  destruct x as [sx|sx| |sx mx ex], y as [sy|sy| |sy my ey];
    try contradiction; intros Hx Hy.
  9: {
    simpl in Hx, Hy. unfold JS.sub, SFsub.
    rewrite binary_normalize_lt by lia.
    rewrite !shl_align_fst by lia. simpl side. unfold scaled.
    set (ez := Z.min ex ey).
    assert (HP : 0 < 2 ^ (ez - emin JS.prec JS.emax)) by (apply Z.pow_pos_nonneg; lia).
    replace (ex - emin JS.prec JS.emax) with ((ex - ez) + (ez - emin JS.prec JS.emax)) by lia.
    replace (ey - emin JS.prec JS.emax) with ((ey - ez) + (ez - emin JS.prec JS.emax)) by lia.
    rewrite !Z.pow_add_r by lia. rewrite !Z.mul_assoc, !cond_Zopp_mul.
    rewrite Z.ltb_lt.
    set (X := cond_Zopp sx (Zpos mx * 2 ^ (ex - ez))).
    set (Y := cond_Zopp sy (Zpos my * 2 ^ (ey - ez))).
    nia. }
  all: try (destruct sx); try (destruct sy); simpl.
  all: try (split; [intros H; try discriminate H; lia | intros H; try reflexivity; exfalso; lia]).
  all: simpl in Hx, Hy;
    match goal with
    | |- context [2 ^ ?k] => assert (0 < 2 ^ k) by (apply Z.pow_pos_nonneg; lia)
    end;
    split; [intros _; nia | intros _; reflexivity].
Qed.

(** X4: on two records whose subContentIds read as numbers, the comparator's
    answer is positive exactly when the first number is the greater,
    negative exactly when it is the smaller, and so positive one way
    round exactly when it is negative the other way round: the comparator
    is a consistent one. *)
Theorem comparator_follows_the_numbers (a b : IContentUserData) :
  JS.isNaN (key a) = false -> JS.isNaN (key b) = false ->
  (JS.ltb JS.pos_zero (JS.SortCompare bySubContentId a b) = true
   <-> ~ number_le (key a) (key b))
  /\ (JS.ltb (JS.SortCompare bySubContentId a b) JS.pos_zero = true
      <-> ~ number_le (key b) (key a))
  /\ (JS.ltb JS.pos_zero (JS.SortCompare bySubContentId a b) = true
      <-> JS.ltb (JS.SortCompare bySubContentId b a) JS.pos_zero = true).
Proof.
  intros Ha Hb. apply key_well_formed in Ha, Hb.
  pose proof (number_gt_spec _ _ Ha Hb) as Hgt.
  pose proof (number_lt_spec _ _ Ha Hb) as Hlt.
  pose proof (number_lt_spec _ _ Hb Ha) as Hlt'.
  unfold number_gt in Hgt. unfold JS.SortCompare, bySubContentId, key in *.
  split; [exact Hgt|]. split; [exact Hlt|].
  rewrite Hgt, Hlt'. reflexivity.
Qed.

(** X5: a subContentId that does not read as a number makes the comparator
    answer NaN, which [sort] takes for +0: such a record is level with
    every other record, whichever side it is on. *)
Theorem comparator_is_level_without_a_number (a b : IContentUserData) :
  JS.isNaN (key a) = true \/ JS.isNaN (key b) = true ->
  JS.isNaN (bySubContentId a b) = true
  /\ JS.SortCompare bySubContentId a b = JS.pos_zero
  /\ after (subContentId a) (subContentId b) = false.
Proof.
  unfold after, number_gt, JS.SortCompare, bySubContentId, key.
  intros [H|H].
  - destruct (JS.StringToNumber (subContentId a)); try discriminate H.
    repeat split.
  - destruct (JS.StringToNumber (subContentId b)); try discriminate H.
    destruct (JS.StringToNumber (subContentId a)); repeat split.
Qed.

End ComparatorFacts.

(** ** Sorting and filtering *)
Section OrderFacts.
Import ContentUserDataManager.

Let key_le (a b : IContentUserData) : Prop := number_le (key a) (key b).
Let well_formed_keys (l : list IContentUserData) : Prop :=
  Forall (fun r => well_formed (key r)) l.

Lemma numeric_well_formed (l : list IContentUserData) :
  numeric l -> well_formed_keys l.
Proof.
  intros H. eapply List.Forall_impl; [|exact H]. intros r. apply key_well_formed.
Qed.

Lemma not_after (x y : IContentUserData) :
  well_formed (key x) -> well_formed (key y) -> key_le x y ->
  after (subContentId x) (subContentId y) = false.
Proof.
  intros Hx Hy Hle. destruct (after (subContentId x) (subContentId y)) eqn:H; [|reflexivity].
  apply after_spec in H; [contradiction|exact Hx|exact Hy].
Qed.

(** A record that is not behind any record of a list goes in front. *)
Lemma insert_front (x : IContentUserData) (l : list IContentUserData) :
  well_formed (key x) -> well_formed_keys l -> Forall (key_le x) l ->
  JS.insert bySubContentId x l = x :: l.
Proof.
  intros Hx Hl Hle. destruct l as [|y l]; [reflexivity|].
  rewrite insert_by_subContentId.
  inversion Hl; inversion Hle; subst. now rewrite not_after.
Qed.

Lemma sort_ordered (l : list IContentUserData) :
  well_formed_keys l -> StronglySorted key_le l -> JS.sort bySubContentId l = l.
Proof.
  induction l as [|x l IH]; intros Hl Hs; [reflexivity|].
  rewrite sort_cons. inversion Hl; subst.
  apply StronglySorted_inv in Hs as [Hs Hx].
  rewrite IH by assumption. now apply insert_front.
Qed.

Lemma filter_insert (p : IContentUserData -> bool) (x : IContentUserData)
    (l : list IContentUserData) :
  well_formed (key x) -> well_formed_keys l -> StronglySorted key_le l ->
  List.filter p (JS.insert bySubContentId x l)
  = if p x then JS.insert bySubContentId x (List.filter p l) else List.filter p l.
Proof.
  intros Hx. induction l as [|y l IH]; intros Hl Hs.
  - rewrite insert_nil. simpl. now destruct (p x).
  - inversion Hl as [|? ? Hy Hl']; subst.
    apply StronglySorted_inv in Hs as [Hs Hyl].
    rewrite insert_by_subContentId.
    destruct (after (subContentId x) (subContentId y)) eqn:Hgt.
    + simpl. rewrite IH by assumption.
      destruct (p x), (p y); try reflexivity.
      rewrite insert_by_subContentId, Hgt. reflexivity.
    + assert (Hxy : key_le x y).
      { destruct (number_le_dec (key x) (key y)) as [H|H]; [exact H|].
        apply after_spec in H; [congruence|exact Hx|exact Hy]. }
      change (List.filter p (x :: y :: l))
        with (if p x then x :: List.filter p (y :: l) else List.filter p (y :: l)).
      destruct (p x); [|reflexivity].
      symmetry. apply insert_front; [exact Hx| |].
      * apply List.Forall_forall. intros z Hz. apply filter_In in Hz as [Hz _].
        revert z Hz. now apply List.Forall_forall.
      * apply List.Forall_forall. intros z Hz. apply filter_In in Hz as [Hz _].
        destruct Hz as [<-|Hz]; [exact Hxy|].
        apply (number_le_trans _ _ _ Hxy).
        revert z Hz. now apply List.Forall_forall.
Qed.

Lemma filter_sort (p : IContentUserData -> bool) (l : list IContentUserData) :
  well_formed_keys l ->
  List.filter p (JS.sort bySubContentId l) = JS.sort bySubContentId (List.filter p l).
Proof.
  induction l as [|x l IH]; intros Hl; [reflexivity|].
  inversion Hl as [|? ? Hx Hl']; subst.
  rewrite sort_cons, filter_insert.
  - simpl. rewrite IH by assumption. now destruct (p x).
  - exact Hx.
  - unfold well_formed_keys. now rewrite sort_Permutation.
  - now apply sort_sorted.
Qed.

Lemma tied_level (k : JS.number) (l : list IContentUserData) :
  StronglySorted key_le (List.filter (tied k) l).
Proof.
  induction l as [|x l IH]; simpl; [constructor|].
  destruct (tied k x) eqn:Hx; [|exact IH].
  constructor; [exact IH|].
  apply List.Forall_forall. intros y Hy. apply filter_In in Hy as [_ Hy].
  unfold tied in Hx, Hy. unfold key_le, number_le. lia.
Qed.

Lemma filter_well_formed (p : IContentUserData -> bool) (l : list IContentUserData) :
  well_formed_keys l -> well_formed_keys (List.filter p l).
Proof.
  intros H. apply List.Forall_forall. intros y Hy. apply filter_In in Hy as [Hy _].
  revert y Hy. now apply List.Forall_forall.
Qed.

(** The sort is stable: the records of one value stay as they were listed. *)
Lemma sort_stable (k : JS.number) (l : list IContentUserData) :
  well_formed_keys l ->
  List.filter (tied k) (JS.sort bySubContentId l) = List.filter (tied k) l.
Proof.
  intros Hl. rewrite filter_sort by exact Hl.
  apply sort_ordered; [now apply filter_well_formed | apply tied_level].
Qed.

(** Two ascending lists of the same records, no two of one value, are
    one list. *)
Lemma ordered_unique (l1 : list IContentUserData) :
  forall l2,
    StronglySorted key_le l1 -> StronglySorted key_le l2 ->
    Permutation l1 l2 -> List.NoDup (map rank l1) -> l1 = l2.
Proof.
  induction l1 as [|x l1 IH]; intros l2 H1 H2 Hp Hn.
  - now apply Permutation_nil in Hp.
  - destruct l2 as [|y l2]; [now apply Permutation_sym, Permutation_nil in Hp|].
    apply StronglySorted_inv in H1 as [H1 Hx].
    apply StronglySorted_inv in H2 as [H2 Hy].
    simpl in Hn. apply List.NoDup_cons_iff in Hn as [Hn1 Hn].
    assert (Hxy : x = y).
    { assert (Hin : In y (x :: l1))
        by (apply (Permutation_in y (Permutation_sym Hp)); now left).
      destruct Hin as [H|Hin]; [exact H|].
      assert (Hin' : In x (y :: l2)) by (apply (Permutation_in x Hp); now left).
      destruct Hin' as [H|Hin']; [now symmetry|].
      rewrite List.Forall_forall in Hx, Hy.
      pose proof (Hx y Hin) as Hle1. pose proof (Hy x Hin') as Hle2.
      exfalso. apply Hn1. apply in_map_iff. exists y. split; [|exact Hin].
      unfold rank. unfold key_le, number_le in Hle1, Hle2. f_equal; lia. }
    subst y. f_equal. apply IH; try assumption.
    now apply Permutation_cons_inv in Hp.
Qed.

End OrderFacts.

(** ** generateContentUserDataIntegration and the order of the backend's list *)
Section GenerateOrderFacts.
Context {S : Type}.
Import ContentUserDataManager.

Variable storage : Storage.t S.
Variables (contentId : ContentId) (user : IUser.t) (w : World S).
Variables (states : list IContentUserData) (s' : S).
Hypothesis listed :
  Storage.listByContent storage contentId (IUser.id user) (backend w)
  = (Fulfilled states, s').

(** X6: the method sorts first and filters then; when every subContentId
    listed reads as a number, the result is what filtering first and
    sorting then gives. *)
Theorem generate_sorts_the_preloaded :
  numeric states ->
  generateContentUserDataIntegration (configured storage) contentId user w
  = (Fulfilled (Some (map serialize (JS.sort bySubContentId (preloaded states)))),
     called w s' (Call_listByContent contentId (IUser.id user))).
Proof.
  intros Hnum. rewrite (generate_configured _ _ _ _ _ _ listed).
  unfold preloaded. rewrite filter_sort by now apply numeric_well_formed.
  reflexivity.
Qed.

(** X7: records whose subContentIds read as the same number keep, among the
    survivors, the order in which the backend listed them; and a list
    that is already in ascending order comes out, filtered, as listed. *)
Theorem generate_is_stable :
  numeric states ->
  exists survivors,
    generateContentUserDataIntegration (configured storage) contentId user w
    = (Fulfilled (Some (map serialize survivors)),
       called w s' (Call_listByContent contentId (IUser.id user)))
    /\ (forall k : JS.number,
          List.filter (tied k) survivors = List.filter (tied k) (preloaded states))
    /\ (StronglySorted (fun a b => number_le (key a) (key b)) states ->
        survivors = preloaded states).
Proof.
  intros Hnum. pose proof (numeric_well_formed _ Hnum) as Hwf.
  exists (preloaded (JS.sort bySubContentId states)).
  split; [now apply generate_configured|]. split.
  - intros k. unfold preloaded. rewrite filter_sort by exact Hwf.
    apply sort_stable. now apply filter_well_formed.
  - intros Hs. now rewrite sort_ordered.
Qed.

Variables (w2 : World S) (states2 : list IContentUserData) (s2' : S).
Hypothesis listed2 :
  Storage.listByContent storage contentId (IUser.id user) (backend w2)
  = (Fulfilled states2, s2').

(** X8: when the subContentIds read as numbers and no two preloaded records
    read as the same number, the result does not depend on the order in
    which the backend lists the records. *)
Theorem generate_forgets_the_listing_order :
  numeric states -> Permutation states states2 ->
  List.NoDup (map rank (preloaded states)) ->
  fst (generateContentUserDataIntegration (configured storage) contentId user w)
  = fst (generateContentUserDataIntegration (configured storage) contentId user w2).
Proof.
  intros Hnum Hperm Hnd.
  rewrite (generate_configured _ _ _ _ _ _ listed).
  rewrite (generate_configured _ _ _ _ _ _ listed2). simpl. do 3 f_equal.
  assert (Hnum2 : numeric states2) by (unfold numeric; now rewrite <- Hperm).
  apply ordered_unique.
  - now apply preloaded_sorted.
  - now apply preloaded_sorted.
  - rewrite !preloaded_sort. now apply filter_Permutation_bool.
  - eapply Permutation_NoDup; [|exact Hnd].
    apply Permutation_map, Permutation_sym, preloaded_sort.
Qed.

End GenerateOrderFacts.

(** ** The empty subContentId in the result *)
Section EmptySubContentIdInTheResult.
Context {S : Type}.
Import ContentUserDataManager.

Variable storage : Storage.t S.
Variables (contentId : ContentId) (user : IUser.t) (w : World S).
Variables (states : list IContentUserData) (s' : S).
Hypothesis listed :
  Storage.listByContent storage contentId (IUser.id user) (backend w)
  = (Fulfilled states, s').

Lemma tied_zero_positive (a : IContentUserData) (p : positive) :
  decimal_digits (subContentId a) = Some (Npos p) -> tied JS.pos_zero a = false.
Proof.
  intros Ha. destruct (tied JS.pos_zero a) eqn:Ht; [|reflexivity].
  exfalso. unfold tied in Ht. apply andb_true_iff in Ht as [H1 H2].
  apply Z.eqb_eq in H1, H2.
  apply (positive_above_zero (key a)).
  - unfold key. rewrite (StringToNumber_decimal _ p Ha).
    apply round_ratio_integer_positive.
  - apply StringToNumber_well_formed.
  - unfold number_le. lia.
Qed.

(** C10: the empty subContentId is the number +0, not NaN; against "0"
    the comparator answers +0 in both directions, against a string of
    decimal digits that writes a positive integer a negative number.
    Whenever every subContentId listed reads as a number, the result of
    generateContentUserDataIntegration has the record with the empty
    subContentId in front of every record with such a positive one, never
    behind it, and leaves the records that read as zero (the empty one and
    those with "0") in the order in which they were listed. *)
Theorem generate_empty_subContentId (e z a : IContentUserData) (p : positive) :
  subContentId e = "" -> subContentId z = "0" ->
  decimal_digits (subContentId a) = Some (Npos p) ->
  numeric states ->
  JS.StringToNumber (subContentId e) = JS.pos_zero
  /\ JS.SortCompare bySubContentId e z = JS.pos_zero
  /\ JS.SortCompare bySubContentId z e = JS.pos_zero
  /\ JS.ltb (JS.SortCompare bySubContentId e a) JS.pos_zero = true
  /\ exists survivors,
       generateContentUserDataIntegration (configured storage) contentId user w
       = (Fulfilled (Some (map serialize survivors)),
          called w s' (Call_listByContent contentId (IUser.id user)))
       /\ Permutation survivors (preloaded states)
       /\ (In e survivors -> In a survivors ->
           exists l1 l2 l3, survivors = (l1 ++ e :: l2 ++ a :: l3)%list)
       /\ (forall l1 l2 l3, survivors <> (l1 ++ a :: l2 ++ e :: l3)%list)
       /\ List.filter (tied JS.pos_zero) survivors
          = List.filter (tied JS.pos_zero) (preloaded states)
       /\ tied JS.pos_zero e = true /\ tied JS.pos_zero z = true
       /\ tied JS.pos_zero a = false.
Proof.
  intros He Hz Ha Hnum.
  destruct (empty_subContentId_sorts_as_zero e z a p He Hz Ha)
    as (H0 & _ & Hez & Hze & _ & _ & Hea & _ & _ & Hnever).
  repeat (split; [assumption|]).
  exists (preloaded (JS.sort bySubContentId states)).
  pose proof (Hnever states Hnum) as Hnot.
  split; [now apply generate_configured|].
  split; [apply preloaded_sort|].
  split; [|split; [exact Hnot|split; [|split; [|split]]]].
  - intros Hine Hina.
    apply in_split in Hine as (l1 & l2 & Heq). rewrite Heq in Hina.
    apply in_app_or in Hina as [Hin|[Hin|Hin]].
    + exfalso. apply in_split in Hin as (m1 & m2 & ->).
      apply (Hnot m1 m2 l2). rewrite Heq, <- app_assoc. reflexivity.
    + subst a. rewrite He in Ha. discriminate Ha.
    + apply in_split in Hin as (m1 & m2 & ->). now exists l1, m1, m2.
  - unfold preloaded. rewrite filter_sort by now apply numeric_well_formed.
    apply sort_stable. now apply filter_well_formed, numeric_well_formed.
  - unfold tied, key. now rewrite He.
  - unfold tied, key. now rewrite Hz.
  - now apply tied_zero_positive with (p := p).
Qed.

End EmptySubContentIdInTheResult.

(** ** The controller's answer to a read *)
Section ControllerReading.
Context {S : Type}.
Import ContentUserDataController.

(** X9: getContentUserData answers a fulfilled read with status 200 and a
    success payload: [false] when the manager found nothing and also when
    the state found is the empty string, the state itself otherwise; a
    rejected read is handed on and nothing is sent. *)
Theorem getContentUserData_answers {W : Type}
    (manager : ContentId -> string -> string -> IUser.t ->
               Async W (option IContentUserData))
    (req : Request) (w w' : W) (outcome : Outcome (option IContentUserData)) :
  manager (contentId (params req)) (dataType (params req)) (subContentId (params req))
    (user req) w = (outcome, w') ->
  match outcome with
  | Rejected e => getContentUserData manager req w = (Rejected e, w')
  | Fulfilled result =>
      exists data,
        getContentUserData manager req w
        = (Fulfilled {| jsonStatus := 200; jsonBody := AjaxSuccessResponse data |}, w')
        /\ (data = JS.Boolean false
            <-> result = None \/ exists r, result = Some r /\ userState r = "")
        /\ (forall r, result = Some r -> userState r <> "" ->
            data = JS.String (userState r))
  end.
Proof.
  intros H. unfold getContentUserData, await. rewrite H.
  destruct outcome as [[r|]|e]; [| |reflexivity].
  - simpl. destruct (String.eqb_spec (userState r) "") as [He|He]; simpl.
    + exists (JS.Boolean false). split; [reflexivity|]. split.
      * split; [|reflexivity]. intros _. right. now exists r.
      * intros r' [= <-] Hne. contradiction.
    + exists (JS.String (userState r)). split; [reflexivity|]. split.
      * split; [discriminate|]. intros [Hn|(r' & [= <-] & He')]; [discriminate|contradiction].
      * now intros r' [= <-] _.
  - exists (JS.Boolean false). split; [reflexivity|]. split.
    + split; [|reflexivity]. intros _. now left.
    + intros r Hr. discriminate Hr.
Qed.

End ControllerReading.

(** ** The further statements at sample data *)
Module MoreWitnesses.
Import ContentUserDataManager MemoryStorage Sample Samples.

Lemma saveContentUserData_calls_witness :
  exists pre : bool,
    JS.Boolean true = JS.Boolean pre
    /\ ((JS.Boolean false = JS.Boolean true
         /\ Call_saveContentUserData "c1" "state" "0" "again" false true alice
            = Call_deleteContentUserDataByUserId "c1" (IUser.id alice) alice)
        \/ (JS.Boolean false = JS.Boolean false
            /\ Call_saveContentUserData "c1" "state" "0" "again" false true alice
               = Call_saveContentUserData "c1" "state" "0" "again" false pre alice)).
Proof.
  apply (saveContentUserData_calls (configured storage) (holding [s0])
           "c1" "state" "0" "again" (JS.Boolean false) (JS.Boolean true) alice
           (Call_saveContentUserData "c1" "state" "0" "again" false true alice)
           (snd (save "c1" "state" "0" "again" false true alice (backend (holding [s0]))))).
  reflexivity.
Defined.

Lemma comparator_follows_the_numbers_witness :
  (JS.ltb JS.pos_zero (JS.SortCompare bySubContentId s10 s2) = true
   <-> ~ number_le (key s10) (key s2))
  /\ (JS.ltb (JS.SortCompare bySubContentId s10 s2) JS.pos_zero = true
      <-> ~ number_le (key s2) (key s10))
  /\ (JS.ltb JS.pos_zero (JS.SortCompare bySubContentId s10 s2) = true
      <-> JS.ltb (JS.SortCompare bySubContentId s2 s10) JS.pos_zero = true).
Proof. apply comparator_follows_the_numbers; reflexivity. Defined.

Lemma comparator_is_level_without_a_number_witness :
  JS.isNaN (bySubContentId intro s2) = true
  /\ JS.SortCompare bySubContentId intro s2 = JS.pos_zero
  /\ after (subContentId intro) (subContentId s2) = false.
Proof. apply comparator_is_level_without_a_number. left. reflexivity. Defined.

Lemma generate_sorts_the_preloaded_witness :
  generateContentUserDataIntegration (configured storage) "c1" alice
    (holding [s10; s1; s2])
  = (Fulfilled (Some (map serialize (JS.sort bySubContentId (preloaded [s10; s1; s2])))),
     called (holding [s10; s1; s2]) (backend (holding [s10; s1; s2]))
       (Call_listByContent "c1" "alice")).
Proof.
  apply (generate_sorts_the_preloaded storage "c1" alice (holding [s10; s1; s2])
           [s10; s1; s2] _ eq_refl).
  repeat constructor.
Defined.

Lemma generate_is_stable_witness :
  exists survivors,
    generateContentUserDataIntegration (configured storage) "c1" alice
      (holding [s2b; s0; s2])
    = (Fulfilled (Some (map serialize survivors)),
       called (holding [s2b; s0; s2]) (backend (holding [s2b; s0; s2]))
         (Call_listByContent "c1" "alice"))
    /\ List.filter (tied (JS.of_Z 2)) survivors = [s2b; s2].
Proof.
  destruct (generate_is_stable storage "c1" alice (holding [s2b; s0; s2])
              [s2b; s0; s2] _ eq_refl) as (survivors & Hrun & Hst & _).
  - repeat constructor.
  - exists survivors. split; [exact Hrun|]. rewrite Hst. reflexivity.
Defined.

Lemma generate_forgets_the_listing_order_witness :
  fst (generateContentUserDataIntegration (configured storage) "c1" alice
         (holding [s2; s10; p1]))
  = fst (generateContentUserDataIntegration (configured storage) "c1" alice
           (holding [p1; s2; s10])).
Proof.
  apply (generate_forgets_the_listing_order storage "c1" alice
           (holding [s2; s10; p1]) [s2; s10; p1] _ eq_refl
           (holding [p1; s2; s10]) [p1; s2; s10] _ eq_refl).
  - repeat constructor.
  - change [p1; s2; s10] with ([p1] ++ [s2; s10])%list.
    change [s2; s10; p1] with ([s2; s10] ++ [p1])%list.
    apply Permutation_app_comm.
  - vm_compute.
    repeat (constructor;
            [simpl; intros H; repeat destruct H as [H|H]; try discriminate H; contradiction|]).
    constructor.
Defined.

Lemma getContentUserData_answers_witness :
  exists data,
    ContentUserDataController.getContentUserData (loadContentUserData (configured storage)) post_answers
      (holding [s0])
    = (Fulfilled {| ContentUserDataController.jsonStatus := 200; ContentUserDataController.jsonBody := ContentUserDataController.AjaxSuccessResponse data |},
       called (holding [s0]) (backend (holding [s0]))
         (Call_loadContentUserData "c1" "state" "0" alice))
    /\ (data = JS.Boolean false
        <-> Some s0 = None \/ exists r, Some s0 = Some r /\ userState r = "")
    /\ (forall r, Some s0 = Some r -> userState r <> "" -> data = JS.String (userState r)).
Proof.
  apply (getContentUserData_answers (loadContentUserData (configured storage))
           post_answers (holding [s0]) _ (Fulfilled (Some s0))).
  reflexivity.
Defined.

Lemma generate_empty_subContentId_witness :
  exists survivors,
    generateContentUserDataIntegration (configured storage) "c1" alice
      (holding [s10; s0; top])
    = (Fulfilled (Some (map serialize survivors)),
       called (holding [s10; s0; top]) (backend (holding [s10; s0; top]))
         (Call_listByContent "c1" "alice"))
    /\ (exists l1 l2 l3, survivors = (l1 ++ top :: l2 ++ s10 :: l3)%list)
    /\ List.filter (tied JS.pos_zero) survivors = [s0; top].
Proof.
  destruct (generate_empty_subContentId storage "c1" alice (holding [s10; s0; top])
              [s10; s0; top] _ eq_refl top s0 s10 10 eq_refl eq_refl eq_refl)
    as (_ & _ & _ & _ & survivors & Hrun & Hperm & Hfront & _ & Hlevel & _).
  - repeat constructor.
  - exists survivors. split; [exact Hrun|]. split; [|rewrite Hlevel; reflexivity].
    apply Hfront.
    + apply (Permutation_in _ (Permutation_sym Hperm)). simpl. auto.
    + apply (Permutation_in _ (Permutation_sym Hperm)). simpl. auto.
Defined.

(** A listed record whose subContentId does not read as a number, though
    it is not preloaded itself, leaves the preloaded "10" in front of the
    preloaded "2". *)
Lemma generate_orders_numerically_counterexample :
  generateContentUserDataIntegration (configured storage) "c1" alice
    (holding [s10; draft; s2])
  = (Fulfilled (Some [serialize s10; serialize s2]),
     called (holding [s10; draft; s2]) (backend (holding [s10; draft; s2]))
       (Call_listByContent "c1" "alice"))
  /\ preloaded [s10; draft; s2] = [s10; s2]
  /\ decimal_digits (subContentId s10) = Some 10%N
  /\ decimal_digits (subContentId s2) = Some 2%N
  /\ ~ number_le (key s10) (key s2).
Proof.
  split.
  - rewrite (generate_configured storage "c1" alice (holding [s10; draft; s2])
               [s10; draft; s2] _ eq_refl).
    order_known. reflexivity.
  - repeat split. unfold number_le. vm_compute.
    intros [H|[_ H]]; [discriminate H | now apply H].
Qed.

(** The same record leaves the preloaded record with the empty
    subContentId behind the preloaded "10". *)
Lemma generate_empty_subContentId_counterexample :
  generateContentUserDataIntegration (configured storage) "c1" alice
    (holding [s10; draft; top])
  = (Fulfilled (Some [serialize s10; serialize top]),
     called (holding [s10; draft; top]) (backend (holding [s10; draft; top]))
       (Call_listByContent "c1" "alice"))
  /\ preloaded [s10; draft; top] = [s10; top]
  /\ subContentId top = ""
  /\ decimal_digits (subContentId s10) = Some 10%N.
Proof.
  split.
  - rewrite (generate_configured storage "c1" alice (holding [s10; draft; top])
               [s10; draft; top] _ eq_refl).
    order_known. reflexivity.
  - repeat split.
Qed.

End MoreWitnesses.
